(** * Logical checksums of the PostgreSQL checksum fork

    The development follows the C sources one function at a time:

    - [checksum_column.c]   : [pg_column_checksum_internal], [pg_tuple_column_checksum]
    - [checksum_tuple.c]    : [pg_tuple_checksum]
    - [checksum_index.c]    : [pg_index_tuple_checksum]
    - [checksumfuncs.c]     : [pg_checksum_table], [pg_checksum_column], [pg_checksum_index]
    - [checksum_database.c] : [process_index_for_checksum],
                              [process_relation_for_checksum],
                              [pg_database_checksum_internal]

    C integers are mathematical integers with the wrap-around of their type
    written out ([u32], [u64], [int32_of]).  A pointer is modelled by the bytes
    found at its address.  Functions that call [elog(ERROR)] or
    [ereport(ERROR)] return a [result].  Buffer locking, memory contexts and
    interrupt checks have no effect on the values computed and are left out. *)

From Stdlib Require Import ZArith List Bool Lia Ascii Permutation.
Import ListNotations.

Local Open Scope Z_scope.

(** ** Machine integers *)

Module MachInt.

Definition u32 (x : Z) : Z := x mod 2 ^ 32.
Definition u64 (x : Z) : Z := x mod 2 ^ 64.

(** [(int32) x], the cast in [PG_RETURN_INT32((int32) checksum)]. *)
Definition int32_of (x : Z) : Z :=
  let y := u32 x in if y <? 2 ^ 31 then y else y - 2 ^ 32.

End MachInt.
Export MachInt.

(** ** Outcomes *)

(** One constructor per [elog(ERROR)] / [ereport(ERROR)] site of the sources. *)
Inductive error : Type :=
| ErrCacheLookupFailed (typid : Z)          (* checksum_column.c:89 *)
| ErrInvalidPointer                         (* checksum_column.c:145 *)
| ErrInvalidAttributeNumber (attnum : Z)    (* checksum_column.c:200, checksumfuncs.c:300 *)
| ErrAttributeExceeds (attnum natts : Z)    (* checksumfuncs.c:312 *)
| ErrTupleNotUsed (blkno offnum : Z)        (* checksumfuncs.c:326 *)
| ErrCrossDatabase.                         (* checksum_database.c:331 *)

Inductive result (A : Type) : Type :=
| Ok (a : A)
| Err (e : error).
Arguments Ok {A} a.
Arguments Err {A} e.

Definition is_err {A} (r : result A) : bool :=
  match r with Ok _ => false | Err _ => true end.

(** ** Data model *)

(** A [Datum] is a machine word.  [datum_bytes] are the bytes of the word
    itself ([(char * ) &value]); [datum_pointer] is the memory found at the
    address the word holds when it is read as a pointer, [None] for [NULL]. *)
Record Datum : Type := {
  datum_bytes : list Z;
  datum_pointer : option (list Z)
}.

(** The two columns of [pg_type] the column checksum reads. *)
Record FormData_pg_type : Type := {
  typbyval : bool;
  typlen : Z
}.

Record FormData_pg_attribute : Type := {
  atttypid : Z;
  atttypmod : Z
}.

Record TupleDescData : Type := {
  attrs : list FormData_pg_attribute;
  tdtypeid : Z
}.

Definition natts (tupleDesc : TupleDescData) : Z :=
  Z.of_nat (length (attrs tupleDesc)).

Definition TupleDescAttr (tupleDesc : TupleDescData) (i : Z) : FormData_pg_attribute :=
  nth (Z.to_nat i) (attrs tupleDesc) {| atttypid := 0; atttypmod := -1 |}.

Record ItemPointerData : Type := {
  ip_blkid : Z;
  ip_posid : Z
}.

Definition ItemPointerGetBlockNumber (tid : ItemPointerData) : Z := ip_blkid tid.
Definition ItemPointerGetOffsetNumber (tid : ItemPointerData) : Z := ip_posid tid.

(** A heap tuple as it lies on a page: the header fields the checksum reads
    and [t_bytes], the bytes at the tuple's address (header first, then the
    user data starting at [t_hoff]). *)
Record HeapTupleHeaderData : Type := {
  t_xmin : Z;
  t_xmax : Z;
  t_ctid : ItemPointerData;
  t_hoff : Z;
  t_bytes : list Z
}.

Definition HeapTupleHeaderGetRawXmin (tuple : HeapTupleHeaderData) : Z := t_xmin tuple.
Definition HeapTupleHeaderGetRawXmax (tuple : HeapTupleHeaderData) : Z := t_xmax tuple.

Record IndexTupleData : Type := {
  t_tid : ItemPointerData;
  t_info : Z;
  it_bytes : list Z
}.

Definition INDEX_SIZE_MASK : Z := 0x1FFF.
Definition IndexTupleSize (itup : IndexTupleData) : Z := Z.land (t_info itup) INDEX_SIZE_MASK.

(** Line pointers.  A slot pairs the line pointer with the item it points
    at, so [PageGetItem] is a projection. *)
Definition LP_UNUSED : Z := 0.
Definition LP_NORMAL : Z := 1.
Definition LP_REDIRECT : Z := 2.
Definition LP_DEAD : Z := 3.

Record ItemIdData (Item : Type) : Type := {
  lp_flags : Z;
  lp_len : Z;
  lp_item : Item
}.
Arguments lp_flags {Item} _.
Arguments lp_len {Item} _.
Arguments lp_item {Item} _.

Definition ItemIdIsUsed {Item} (lp : ItemIdData Item) : bool := negb (lp_flags lp =? LP_UNUSED).
Definition ItemIdIsDead {Item} (lp : ItemIdData Item) : bool := lp_flags lp =? LP_DEAD.
Definition ItemIdGetLength {Item} (lp : ItemIdData Item) : Z := lp_len lp.

(** A page: its line pointer array [pd_linp], and [pd_stray], what the page
    memory holds where a line pointer outside the array would be read
    ([PageGetItemId] does no bounds check). *)
Record PageData (Item : Type) : Type := {
  pd_upper : Z;
  pd_linp : list (ItemIdData Item);
  pd_stray : Z -> ItemIdData Item
}.
Arguments pd_upper {Item} _.
Arguments pd_linp {Item} _.
Arguments pd_stray {Item} _.

Definition FirstOffsetNumber : Z := 1.
Definition OffsetNumberNext (offnum : Z) : Z := 1 + offnum.

Definition PageIsNew {Item} (page : PageData Item) : bool := pd_upper page =? 0.

Definition PageGetMaxOffsetNumber {Item} (page : PageData Item) : Z :=
  Z.of_nat (length (pd_linp page)).

Definition PageGetItemId {Item} (page : PageData Item) (offnum : Z) : ItemIdData Item :=
  if offnum <? FirstOffsetNumber then pd_stray page offnum
  else match nth_error (pd_linp page) (Z.to_nat (offnum - 1)) with
       | Some lp => lp
       | None => pd_stray page offnum
       end.

Definition PageGetItem {Item} (page : PageData Item) (lp : ItemIdData Item) : Item :=
  lp_item lp.

Definition HeapPage : Type := PageData HeapTupleHeaderData.
Definition IndexPage : Type := PageData IndexTupleData.

(** Catalog constants of PostgreSQL used by the sources. *)
Definition PG_CATALOG_NAMESPACE : Z := 11.
Definition PG_TOAST_NAMESPACE : Z := 99.
Definition BTREE_AM_OID : Z := 403.
Definition InvalidOid : Z := 0.
Definition RELKIND_RELATION : ascii := "r".
Definition RELKIND_INDEX : ascii := "i".
Definition RELKIND_SEQUENCE : ascii := "S".
Definition RELKIND_TOASTVALUE : ascii := "t".
Definition RELKIND_MATVIEW : ascii := "m".
Definition RELPERSISTENCE_PERMANENT : ascii := "p".
Definition RELPERSISTENCE_UNLOGGED : ascii := "u".
Definition RELPERSISTENCE_TEMP : ascii := "t".

Record FormData_pg_class : Type := {
  oid : Z;
  relnamespace : Z;
  relkind : ascii;
  relpersistence : ascii
}.

(** An open relation: what the storage layer and the scan driver hand to the
    checksum code.  [rd_scan] lists the [t_self] of the tuples [heap_getnext]
    returns under the active snapshot, in scan order; [rd_heap_block] and
    [rd_index_block] are [ReadBuffer] followed by [BufferGetPage]. *)
Record RelationData : Type := {
  rd_id : Z;
  rd_relkind : ascii;
  rd_att : TupleDescData;
  rd_scan : list ItemPointerData;
  rd_heap_block : Z -> HeapPage;
  rd_nblocks : Z;
  rd_index_block : Z -> IndexPage
}.

(** The current database: the rows of [pg_class] a scan returns, and
    [relation_open]. *)
Record Database : Type := {
  MyDatabaseId : Z;
  pg_class : list FormData_pg_class;
  relation_open : Z -> RelationData
}.

(** ** External collaborators *)

(** Modelled from the spec: [pg_checksum_data] is declared in [checksum.h]
    but its body is not among the sources.  Section 4.1 gives its contract,
    [mix(bytes, seed) -> u32], a pure function of the byte span and the seed;
    [mix] below is any such function.  The catalog lookup, detoasting and
    tuple deforming belong to PostgreSQL and are taken as given too. *)
Class Backend : Type := {
  mix : list Z -> Z -> Z;
  SearchSysCache1 : Z -> option FormData_pg_type;
  PG_DETOAST_DATUM : Datum -> list Z;
  VARSIZE_ANY : list Z -> Z;
  heap_getattr : HeapTupleHeaderData -> Z -> TupleDescData -> Datum * bool
}.

(** [pg_checksum_data(data, len, init_value)]: [len] and [init_value] are
    [uint32] parameters and the result is a [uint32]; the span handed to
    the mixer is the first [len] bytes at [data]. *)
Definition pg_checksum_data `{Backend} (data : list Z) (len init_value : Z) : Z :=
  u32 (mix (firstn (Z.to_nat (u32 len)) data) (u32 init_value)).

Definition DatumGetPointer (value : Datum) : option (list Z) := datum_pointer value.

(** [DatumGetCString]: the source dereferences the pointer unchecked; a
    [NULL] pointer is outside what the C function defines and reads no
    bytes here. *)
Definition DatumGetCString (value : Datum) : list Z :=
  match datum_pointer value with Some s => s | None => [] end.

Fixpoint strlen (s : list Z) : Z :=
  match s with
  | [] => 0
  | c :: s' => if c =? 0 then 0 else 1 + strlen s'
  end.

(** ** checksum_column.c *)

Definition CHECKSUM_NULL : Z := 0xFFFFFFFF.

Definition pg_column_checksum_internal `{Backend}
  (value : Datum) (isnull : bool) (typid typmod attnum : Z) : result Z :=
  if isnull then Ok CHECKSUM_NULL
  else
    match SearchSysCache1 typid with
    | None => Err (ErrCacheLookupFailed typid)
    | Some typeForm =>
        let finish (checksum : Z) : result Z :=
          Ok (if checksum =? CHECKSUM_NULL
              then Z.land (Z.lxor (Z.lxor CHECKSUM_NULL (u32 attnum)) typid) 0xFFFFFFFE
              else checksum) in
        if typbyval typeForm && (0 <? typlen typeForm) then
          finish (pg_checksum_data (datum_bytes value) (typlen typeForm) attnum)
        else if typlen typeForm =? -1 then
          let varlena := PG_DETOAST_DATUM value in
          finish (pg_checksum_data varlena (VARSIZE_ANY varlena) attnum)
        else if typlen typeForm =? -2 then
          let data := DatumGetCString value in
          finish (pg_checksum_data data (strlen data) attnum)
        else
          match DatumGetPointer value with
          | None => Err ErrInvalidPointer
          | Some data => finish (pg_checksum_data data (typlen typeForm) attnum)
          end
    end.

Definition pg_tuple_column_checksum `{Backend}
  (tuple : HeapTupleHeaderData) (attnum : Z) (tupleDesc : TupleDescData) : result Z :=
  if (attnum <=? 0) || (natts tupleDesc <? attnum) then Err (ErrInvalidAttributeNumber attnum)
  else
    let attr := TupleDescAttr tupleDesc (attnum - 1) in
    let '(value, isnull) := heap_getattr tuple attnum tupleDesc in
    pg_column_checksum_internal value isnull (atttypid attr) (atttypmod attr) attnum.

(** ** checksum_tuple.c *)

(** [offnum] is an [OffsetNumber] (16 bits), [blkno] a [BlockNumber]
    (32 bits): [blkno << 16] is a 32-bit shift.  [len] is a [uint32], so
    [len -= tuple->t_hoff] wraps and [len <= 0] holds for [0] only. *)
Definition pg_tuple_checksum `{Backend}
  (page : HeapPage) (offnum blkno : Z) (include_header : bool) : Z :=
  if (offnum <? FirstOffsetNumber) || (PageGetMaxOffsetNumber page <? offnum) then 0
  else
    let lp := PageGetItemId page offnum in
    if negb (ItemIdIsUsed lp) then 0
    else
      let tuple := PageGetItem page lp in
      let len := ItemIdGetLength lp in
      let data := if include_header then t_bytes tuple
                  else skipn (Z.to_nat (t_hoff tuple)) (t_bytes tuple) in
      let len := if include_header then len else u32 (len - t_hoff tuple) in
      if negb include_header && (len <=? 0) then 0
      else
        let location_hash := Z.lor (u32 (Z.shiftl blkno 16)) offnum in
        let checksum := pg_checksum_data data len location_hash in
        let checksum := Z.lxor checksum location_hash in
        let checksum :=
          if negb include_header
          then Z.lxor checksum
                 (Z.lxor (HeapTupleHeaderGetRawXmin tuple) (HeapTupleHeaderGetRawXmax tuple))
          else checksum in
        if checksum =? CHECKSUM_NULL
        then Z.land (Z.lxor CHECKSUM_NULL location_hash) 0xFFFFFFFE
        else checksum.

(** ** checksum_index.c *)

Definition pg_index_tuple_checksum `{Backend}
  (itup : IndexTupleData) (indexTupDesc : TupleDescData) (attno : Z) : Z :=
  let len := IndexTupleSize itup in
  let checksum := pg_checksum_data (it_bytes itup) len attno in
  let checksum :=
    if tdtypeid indexTupDesc =? BTREE_AM_OID
    then
      let heapTid := t_tid itup in
      let checksum := Z.lxor checksum (ItemPointerGetBlockNumber heapTid) in
      Z.lxor checksum (u32 (Z.shiftl (ItemPointerGetOffsetNumber heapTid) 16))
    else checksum in
  if checksum =? CHECKSUM_NULL
  then Z.land (Z.lxor (Z.lxor CHECKSUM_NULL attno) len) 0xFFFFFFFE
  else checksum.

(** ** checksumfuncs.c *)

(** The offsets [FirstOffsetNumber .. maxoff] and the blocks [0 .. nblocks-1],
    in the order the [for] loops visit them. *)
Definition offsets_upto (maxoff : Z) : list Z :=
  map (fun i => FirstOffsetNumber + Z.of_nat i) (seq 0 (Z.to_nat maxoff)).

Definition blocks_upto (nblocks : Z) : list Z :=
  map Z.of_nat (seq 0 (Z.to_nat nblocks)).

(** Body of the [while (heap_getnext ...)] loop of [pg_checksum_table]. *)
Definition table_checksum_step `{Backend}
  (rel : RelationData) (include_header : bool)
  (table_checksum : Z) (t_self : ItemPointerData) : Z :=
  let page := rd_heap_block rel (ItemPointerGetBlockNumber t_self) in
  let blkno := ItemPointerGetBlockNumber t_self in
  let tuple_checksum :=
    pg_tuple_checksum page (ItemPointerGetOffsetNumber t_self) blkno include_header in
  Z.lxor table_checksum tuple_checksum.

Definition pg_checksum_table `{Backend} (rel : RelationData) (include_header : bool) : Z :=
  let table_checksum := fold_left (table_checksum_step rel include_header) (rd_scan rel) 0 in
  int32_of table_checksum.

(** Body of the inner [for] loop of [pg_checksum_index]: one offset of one page.
    [PageGetItem] yields an address inside the page, so [if (itup)] holds. *)
Definition index_checksum_item `{Backend}
  (tupdesc : TupleDescData) (page : IndexPage) (index_checksum : Z) (offnum : Z) : Z :=
  let itemId := PageGetItemId page offnum in
  if negb (ItemIdIsUsed itemId) || ItemIdIsDead itemId then index_checksum
  else
    let itup := PageGetItem page itemId in
    Z.lxor index_checksum (pg_index_tuple_checksum itup tupdesc offnum).

(** Body of the outer [for] loop of [pg_checksum_index]: one block. *)
Definition index_checksum_block `{Backend}
  (rel : RelationData) (index_checksum : Z) (blkno : Z) : Z :=
  let page := rd_index_block rel blkno in
  if PageIsNew page then index_checksum
  else
    let maxoff := PageGetMaxOffsetNumber page in
    fold_left (index_checksum_item (rd_att rel) page) (offsets_upto maxoff) index_checksum.

Definition pg_checksum_index `{Backend} (rel : RelationData) : Z :=
  let index_checksum :=
    fold_left (index_checksum_block rel) (blocks_upto (rd_nblocks rel)) 0 in
  int32_of index_checksum.

(** [pg_checksum_column(reloid, tid, attnum)], on the relation [relation_open]
    returned. *)
Definition pg_checksum_column `{Backend}
  (rel : RelationData) (tid : ItemPointerData) (attnum_arg : Z) : result Z :=
  if attnum_arg <=? 0 then Err (ErrInvalidAttributeNumber attnum_arg)
  else
    let attnum := attnum_arg in
    let tupleDesc := rd_att rel in
    if natts tupleDesc <? attnum then Err (ErrAttributeExceeds attnum (natts tupleDesc))
    else
      let page := rd_heap_block rel (ItemPointerGetBlockNumber tid) in
      let lp := PageGetItemId page (ItemPointerGetOffsetNumber tid) in
      if negb (ItemIdIsUsed lp)
      then Err (ErrTupleNotUsed (ItemPointerGetBlockNumber tid) (ItemPointerGetOffsetNumber tid))
      else
        let tuple := PageGetItem page lp in
        match pg_tuple_column_checksum tuple attnum tupleDesc with
        | Ok checksum => Ok (int32_of checksum)
        | Err e => Err e
        end.

(** ** checksum_database.c *)

Record DatabaseChecksumState : Type := {
  checksum : Z;
  n_tuples : Z;
  n_pages : Z;
  current_relid : Z;
  current_relkind : ascii;
  include_toast : bool;
  include_system : bool
}.

Definition set_checksum (state : DatabaseChecksumState) (c : Z) : DatabaseChecksumState :=
  {| checksum := c; n_tuples := n_tuples state; n_pages := n_pages state;
     current_relid := current_relid state; current_relkind := current_relkind state;
     include_toast := include_toast state; include_system := include_system state |}.

Definition incr_n_tuples (state : DatabaseChecksumState) : DatabaseChecksumState :=
  {| checksum := checksum state; n_tuples := u64 (n_tuples state + 1);
     n_pages := n_pages state;
     current_relid := current_relid state; current_relkind := current_relkind state;
     include_toast := include_toast state; include_system := include_system state |}.

Definition incr_n_pages (state : DatabaseChecksumState) : DatabaseChecksumState :=
  {| checksum := checksum state; n_tuples := n_tuples state;
     n_pages := u64 (n_pages state + 1);
     current_relid := current_relid state; current_relkind := current_relkind state;
     include_toast := include_toast state; include_system := include_system state |}.

Definition set_current (state : DatabaseChecksumState) (relid : Z) (kind : ascii)
  : DatabaseChecksumState :=
  {| checksum := checksum state; n_tuples := n_tuples state; n_pages := n_pages state;
     current_relid := relid; current_relkind := kind;
     include_toast := include_toast state; include_system := include_system state |}.

(** [((uint64) idx_checksum << 32) | (uint64) idxRel->rd_id], lines 158-159. *)
Definition index_contribution (idx_checksum rd_id : Z) : Z :=
  Z.lor (u64 (Z.shiftl (u32 idx_checksum) 32)) (u32 rd_id).

(** [((uint64) tuple_checksum << 32) | (uint64) relid], lines 253-254. *)
Definition tuple_contribution (tuple_checksum relid : Z) : Z :=
  Z.lor (u64 (Z.shiftl (u32 tuple_checksum) 32)) (u32 relid).

Definition process_index_item `{Backend}
  (idxRel : RelationData) (page : IndexPage)
  (state : DatabaseChecksumState) (offnum : Z) : DatabaseChecksumState :=
  let itemId := PageGetItemId page offnum in
  if negb (ItemIdIsUsed itemId) || ItemIdIsDead itemId then state
  else
    let itup := PageGetItem page itemId in
    let idx_checksum := pg_index_tuple_checksum itup (rd_att idxRel) offnum in
    incr_n_tuples
      (set_checksum state
         (Z.lxor (checksum state) (index_contribution idx_checksum (rd_id idxRel)))).

Definition process_index_block `{Backend}
  (idxRel : RelationData) (state : DatabaseChecksumState) (blkno : Z)
  : DatabaseChecksumState :=
  let page := rd_index_block idxRel blkno in
  if PageIsNew page then state
  else
    let maxoff := PageGetMaxOffsetNumber page in
    incr_n_pages
      (fold_left (process_index_item idxRel page) (offsets_upto maxoff) state).

Definition process_index_for_checksum `{Backend}
  (idxRel : RelationData) (state : DatabaseChecksumState) : DatabaseChecksumState :=
  fold_left (process_index_block idxRel) (blocks_upto (rd_nblocks idxRel)) state.

(** Body of the [while (heap_getnext ...)] loop of [process_relation_for_checksum]. *)
Definition process_heap_tuple `{Backend}
  (rel : RelationData) (relid : Z)
  (state : DatabaseChecksumState) (t_self : ItemPointerData) : DatabaseChecksumState :=
  let page := rd_heap_block rel (ItemPointerGetBlockNumber t_self) in
  let blkno := ItemPointerGetBlockNumber t_self in
  let tuple_checksum :=
    pg_tuple_checksum page (ItemPointerGetOffsetNumber t_self) blkno false in
  incr_n_tuples
    (set_checksum state
       (Z.lxor (checksum state) (tuple_contribution tuple_checksum relid))).

Definition supported_relkind (k : ascii) : bool :=
  Ascii.eqb k RELKIND_RELATION || Ascii.eqb k RELKIND_INDEX
  || Ascii.eqb k RELKIND_MATVIEW || Ascii.eqb k RELKIND_SEQUENCE
  || Ascii.eqb k RELKIND_TOASTVALUE.

Definition process_relation_for_checksum `{Backend}
  (db : Database) (relid : Z) (state : DatabaseChecksumState) : DatabaseChecksumState :=
  let rel := relation_open db relid in
  if negb (supported_relkind (rd_relkind rel)) then state
  else
    let state := set_current state relid (rd_relkind rel) in
    let is_index := Ascii.eqb (rd_relkind rel) RELKIND_INDEX in
    if negb is_index
    then fold_left (process_heap_tuple rel relid) (rd_scan rel) state
    else process_index_for_checksum rel state.

(** The progress callback receives a pointer to the state. *)
Definition checksum_progress_callback : Type :=
  option (DatabaseChecksumState -> DatabaseChecksumState).

(** Body of the [while] loop over [pg_class] in [pg_database_checksum_internal]. *)
Definition database_checksum_step `{Backend}
  (db : Database) (include_system include_toast : bool)
  (progress_callback : checksum_progress_callback)
  (state : DatabaseChecksumState) (classForm : FormData_pg_class) : DatabaseChecksumState :=
  let relid := oid classForm in
  let relnamespace := relnamespace classForm in
  let relkind := relkind classForm in
  let relpersistence := relpersistence classForm in
  if negb include_system
     && ((relnamespace =? PG_CATALOG_NAMESPACE) || (relnamespace =? PG_TOAST_NAMESPACE))
  then state
  else if negb include_toast && Ascii.eqb relkind RELKIND_TOASTVALUE then state
  else if Ascii.eqb relpersistence RELPERSISTENCE_UNLOGGED then state
  else
    let state := process_relation_for_checksum db relid state in
    match progress_callback with
    | Some callback => callback state
    | None => state
    end.

Definition OidIsValid (o : Z) : bool := negb (o =? InvalidOid).

Definition initial_state (include_system include_toast : bool) : DatabaseChecksumState :=
  {| checksum := 0; n_tuples := 0; n_pages := 0;
     current_relid := 0; current_relkind := zero;
     include_toast := include_toast; include_system := include_system |}.

(** The state after the scan of [pg_class], before [state.checksum] is returned. *)
Definition database_checksum_scan `{Backend}
  (db : Database) (include_system include_toast : bool)
  (progress_callback : checksum_progress_callback)
  (classes : list FormData_pg_class) : DatabaseChecksumState :=
  fold_left (database_checksum_step db include_system include_toast progress_callback)
    classes (initial_state include_system include_toast).

Definition pg_database_checksum_internal `{Backend}
  (db : Database) (dboid : Z) (include_system include_toast : bool)
  (progress_callback : checksum_progress_callback) : result Z :=
  if OidIsValid dboid && negb (dboid =? MyDatabaseId db) then Err ErrCrossDatabase
  else
    Ok (checksum
          (database_checksum_scan db include_system include_toast progress_callback
             (pg_class db))).

(** ** Names for the parts of [pg_tuple_checksum] *)

(** The C variable [location_hash], line 116. *)
Definition location_hash (blkno offnum : Z) : Z :=
  Z.lor (u32 (Z.shiftl blkno 16)) offnum.

(** The [uint32 len] left after [len -= tuple->t_hoff]. *)
Definition data_len (page : HeapPage) (offnum : Z) : Z :=
  let lp := PageGetItemId page offnum in
  u32 (ItemIdGetLength lp - t_hoff (PageGetItem page lp)).

(** The bytes checksummed when the header is excluded. *)
Definition data_span (page : HeapPage) (offnum : Z) : list Z :=
  let tuple := PageGetItem page (PageGetItemId page offnum) in
  firstn (Z.to_nat (data_len page offnum))
    (skipn (Z.to_nat (t_hoff tuple)) (t_bytes tuple)).

(** The visibility stamp of the tuple at [offnum] and the C variable
    [mvcc_info] derived from it. *)
Definition visibility_stamp (page : HeapPage) (offnum : Z) : Z * Z :=
  let tuple := PageGetItem page (PageGetItemId page offnum) in
  (HeapTupleHeaderGetRawXmin tuple, HeapTupleHeaderGetRawXmax tuple).

Definition mvcc_info (page : HeapPage) (offnum : Z) : Z :=
  Z.lxor (fst (visibility_stamp page offnum)) (snd (visibility_stamp page offnum)).

(** The slot at [offnum] is within the page, in use and holds user data:
    the header-excluded checksum is computed, not answered with [0]. *)
Definition data_slot (page : HeapPage) (offnum : Z) : Prop :=
  FirstOffsetNumber <= offnum <= PageGetMaxOffsetNumber page
  /\ ItemIdIsUsed (PageGetItemId page offnum) = true
  /\ data_len page offnum <> 0.

(** The value of [checksum] when line 145 tests it against [CHECKSUM_NULL],
    header excluded. *)
Definition raw_tuple_checksum `{Backend} (page : HeapPage) (offnum blkno : Z) : Z :=
  let location_hash := location_hash blkno offnum in
  Z.lxor
    (Z.lxor (u32 (mix (data_span page offnum) (u32 location_hash))) location_hash)
    (mvcc_info page offnum).

(** ** The aggregate of section 4.5 and the entries it folds *)

(** The XOR-fold of a list of contributions, starting from [0]. *)
Definition xor_fold (contributions : list Z) : Z := fold_right Z.lxor 0 contributions.

(** The fingerprint [pg_checksum_table] and the heap branch of
    [process_relation_for_checksum] take of the tuple at [t_self]. *)
Definition tuple_fingerprint `{Backend}
  (rel : RelationData) (include_header : bool) (t_self : ItemPointerData) : Z :=
  pg_tuple_checksum (rd_heap_block rel (ItemPointerGetBlockNumber t_self))
    (ItemPointerGetOffsetNumber t_self) (ItemPointerGetBlockNumber t_self) include_header.

(** Fingerprints of the tuples a table scan returns, in scan order. *)
Definition table_fingerprints `{Backend}
  (rel : RelationData) (include_header : bool) : list Z :=
  map (tuple_fingerprint rel include_header) (rd_scan rel).

(** Fingerprint of the entry at [offnum] of an index page, if it is live
    (used and not dead). *)
Definition index_item_fingerprints `{Backend}
  (tupdesc : TupleDescData) (page : IndexPage) (offnum : Z) : list Z :=
  let itemId := PageGetItemId page offnum in
  if negb (ItemIdIsUsed itemId) || ItemIdIsDead itemId then []
  else [pg_index_tuple_checksum (PageGetItem page itemId) tupdesc offnum].

(** Fingerprints of the live entries of the page at [blkno], none for an
    uninitialized page. *)
Definition index_block_fingerprints `{Backend} (rel : RelationData) (blkno : Z) : list Z :=
  let page := rd_index_block rel blkno in
  if PageIsNew page then []
  else flat_map (index_item_fingerprints (rd_att rel) page)
         (offsets_upto (PageGetMaxOffsetNumber page)).

Definition index_fingerprints `{Backend} (rel : RelationData) : list Z :=
  flat_map (index_block_fingerprints rel) (blocks_upto (rd_nblocks rel)).

(** The 64-bit terms one relation adds to the database checksum. *)
Definition relation_contributions `{Backend} (db : Database) (relid : Z) : list Z :=
  let rel := relation_open db relid in
  if negb (supported_relkind (rd_relkind rel)) then []
  else if Ascii.eqb (rd_relkind rel) RELKIND_INDEX
       then map (fun fp => index_contribution fp (rd_id rel)) (index_fingerprints rel)
       else map (fun fp => tuple_contribution fp relid) (table_fingerprints rel false).

(** The three inclusion filters of [pg_database_checksum_internal]. *)
Definition relation_skipped
  (include_system include_toast : bool) (classForm : FormData_pg_class) : bool :=
  (negb include_system
   && ((relnamespace classForm =? PG_CATALOG_NAMESPACE)
       || (relnamespace classForm =? PG_TOAST_NAMESPACE)))
  || (negb include_toast && Ascii.eqb (relkind classForm) RELKIND_TOASTVALUE)
  || Ascii.eqb (relpersistence classForm) RELPERSISTENCE_UNLOGGED.

(** The rows of [pg_class] that are not unlogged. *)
Definition not_unlogged (classForm : FormData_pg_class) : bool :=
  negb (Ascii.eqb (relpersistence classForm) RELPERSISTENCE_UNLOGGED).

(** A toast-kind row lies in the toast or the system-catalog namespace. *)
Definition toast_in_system_namespace (classForm : FormData_pg_class) : Prop :=
  relkind classForm = RELKIND_TOASTVALUE ->
  relnamespace classForm = PG_TOAST_NAMESPACE
  \/ relnamespace classForm = PG_CATALOG_NAMESPACE.

(** The 64-bit terms one row of [pg_class] adds to the database checksum. *)
Definition class_contributions `{Backend}
  (db : Database) (include_system include_toast : bool)
  (classForm : FormData_pg_class) : list Z :=
  if relation_skipped include_system include_toast classForm then []
  else relation_contributions db (oid classForm).

Definition database_contributions `{Backend}
  (db : Database) (include_system include_toast : bool) : list Z :=
  flat_map (class_contributions db include_system include_toast) (pg_class db).

(** The same relation or database under another scan order. *)
Definition with_scan (rel : RelationData) (scan : list ItemPointerData) : RelationData :=
  {| rd_id := rd_id rel; rd_relkind := rd_relkind rel; rd_att := rd_att rel;
     rd_scan := scan; rd_heap_block := rd_heap_block rel;
     rd_nblocks := rd_nblocks rel; rd_index_block := rd_index_block rel |}.

Definition with_classes (db : Database) (classes : list FormData_pg_class) : Database :=
  {| MyDatabaseId := MyDatabaseId db; pg_class := classes;
     relation_open := relation_open db |}.

(** ** The tuple fingerprint as section 4.3 of the design words it *)

Module Spec.

Definition NULL_MARK : Z := 0xFFFFFFFF.

(** [location_seed = (container_block_id << 16) | offset_in_container],
    a 32-bit seed for [mix(bytes, seed : u32)]. *)
Definition location_seed (container_block_id offset_in_container : Z) : Z :=
  Z.lor (u32 (Z.shiftl container_block_id 16)) offset_in_container.

(** "If the computed fingerprint collides with NULL_MARK, remap by XOR-ing
    with the seed and clearing the low bit." *)
Definition null_mark_remap (fingerprint seed : Z) : Z :=
  if fingerprint =? NULL_MARK
  then Z.land (Z.lxor fingerprint seed) (Z.lxor NULL_MARK 1)
  else fingerprint.

(** The span to mix: the full row bytes, or the bytes past the header. *)
Definition select_span (row_bytes : list Z) (header_length : Z) (include_header : bool)
  : list Z :=
  if include_header then row_bytes else skipn (Z.to_nat header_length) row_bytes.

Definition checksum_tuple `{Backend}
  (row_bytes : list Z) (header_length : Z)
  (offset_in_container container_block_id : Z) (include_header : bool)
  (creation_txn_id supersession_txn_id : Z) : Z :=
  let seed := location_seed container_block_id offset_in_container in
  let span := select_span row_bytes header_length include_header in
  let raw := Z.lxor (u32 (mix span seed)) seed in
  let raw :=
    if include_header then raw
    else Z.lxor raw (Z.lxor creation_txn_id supersession_txn_id) in
  null_mark_remap raw seed.

End Spec.

(** ** A concrete backend for evaluating the model *)

Module Demo.

(** An FNV-1a style fold, standing in for the mixer whose body is not among
    the sources. *)
Definition fnv1a (bytes : list Z) (seed : Z) : Z :=
  fold_left (fun h b => u32 (Z.lxor h b * 16777619)) bytes seed.

Definition INT4OID : Z := 23.
Definition TEXTOID : Z := 25.

(** A catalog with [int4] and [text]; every attribute reads the tuple's user
    data as its value. *)
Definition backend : Backend :=
  {| mix := fnv1a;
     SearchSysCache1 := fun typid =>
       if typid =? INT4OID then Some {| typbyval := true; typlen := 4 |}
       else if typid =? TEXTOID then Some {| typbyval := false; typlen := -1 |}
       else None;
     PG_DETOAST_DATUM := DatumGetCString;
     VARSIZE_ANY := fun varlena => Z.of_nat (length varlena);
     heap_getattr := fun tuple attnum tupleDesc =>
       let user_data := skipn (Z.to_nat (t_hoff tuple)) (t_bytes tuple) in
       ({| datum_bytes := user_data; datum_pointer := Some user_data |}, false) |}.

Definition tid (blkno offnum : Z) : ItemPointerData :=
  {| ip_blkid := blkno; ip_posid := offnum |}.

(** A heap tuple with a 24-byte header and the given user data. *)
Definition heap_tuple (xmin xmax : Z) (user_data : list Z) : HeapTupleHeaderData :=
  {| t_xmin := xmin; t_xmax := xmax; t_ctid := tid 0 1; t_hoff := 24;
     t_bytes := repeat 0 24 ++ user_data |}.

Definition normal_item {Item} (len : Z) (it : Item) : ItemIdData Item :=
  {| lp_flags := LP_NORMAL; lp_len := len; lp_item := it |}.

Definition unused_item {Item} (it : Item) : ItemIdData Item :=
  {| lp_flags := LP_UNUSED; lp_len := 0; lp_item := it |}.

Definition heap_page (items : list (ItemIdData HeapTupleHeaderData)) : HeapPage :=
  {| pd_upper := 8192; pd_linp := items;
     pd_stray := fun _ => unused_item (heap_tuple 0 0 []) |}.

Definition index_page (items : list (ItemIdData IndexTupleData)) : IndexPage :=
  {| pd_upper := 8192; pd_linp := items;
     pd_stray := fun _ =>
       unused_item {| t_tid := tid 0 0; t_info := 0; it_bytes := [] |} |}.

(** A heap relation of kind [kind] with one and the same page at every block. *)
Definition heap_relation (relid : Z) (kind : ascii) (tupleDesc : TupleDescData)
  (scan : list ItemPointerData) (page : HeapPage) : RelationData :=
  {| rd_id := relid; rd_relkind := kind; rd_att := tupleDesc;
     rd_scan := scan; rd_heap_block := fun _ => page;
     rd_nblocks := 1; rd_index_block := fun _ => index_page [] |}.

(** A page with a row in slot 1, a free slot 2 and a header-only row in
    slot 3. *)
Definition row_a : HeapTupleHeaderData := heap_tuple 100 0 [1; 2; 3; 4].

Definition page_a : HeapPage :=
  heap_page [normal_item 28 row_a; unused_item row_a; normal_item 24 (heap_tuple 7 0 [])].

(** The same user data under two other visibility stamps. *)
Definition page_4_6 : HeapPage := heap_page [normal_item 28 (heap_tuple 4 6 [1; 2; 3; 4])].
Definition page_5_7 : HeapPage := heap_page [normal_item 28 (heap_tuple 5 7 [1; 2; 3; 4])].

(** A two-column table stored on [page_a], and the catalog rows and
    databases built around it. *)
Definition two_columns : TupleDescData :=
  {| attrs := [ {| atttypid := INT4OID; atttypmod := -1 |};
                {| atttypid := TEXTOID; atttypmod := -1 |} ];
     tdtypeid := 0 |}.

Definition table_a : RelationData :=
  heap_relation 16384 RELKIND_RELATION two_columns [tid 0 1; tid 0 3] page_a.

Definition class_row (relid relnamespace : Z) (relkind relpersistence : ascii)
  : FormData_pg_class :=
  {| oid := relid; relnamespace := relnamespace;
     relkind := relkind; relpersistence := relpersistence |}.

(** Every relation of the database is a heap of kind [kind] holding the
    first row of [page_a]. *)
Definition database (kind : ascii) (classes : list FormData_pg_class) : Database :=
  {| MyDatabaseId := 5; pg_class := classes;
     relation_open := fun relid =>
       heap_relation relid kind two_columns [tid 0 1] page_a |}.

Definition PG_PUBLIC_NAMESPACE : Z := 2200.

(** A B-tree index with two live entries and a dead one on block 0 and an
    uninitialized block 1. *)
Definition index_tuple (heap_blkno heap_offnum : Z) (key : list Z) : IndexTupleData :=
  {| t_tid := tid heap_blkno heap_offnum;
     t_info := 8 + Z.of_nat (length key);
     it_bytes := repeat 0 8 ++ key |}.

Definition index_a : RelationData :=
  {| rd_id := 16390; rd_relkind := RELKIND_INDEX;
     rd_att := {| attrs := [ {| atttypid := INT4OID; atttypmod := -1 |} ];
                  tdtypeid := BTREE_AM_OID |};
     rd_scan := []; rd_heap_block := fun _ => heap_page [];
     rd_nblocks := 2;
     rd_index_block := fun blkno =>
       if blkno =? 0
       then index_page
              [ normal_item 12 (index_tuple 0 1 [1; 0; 0; 0]);
                {| lp_flags := LP_DEAD; lp_len := 12;
                   lp_item := index_tuple 0 2 [2; 0; 0; 0] |};
                normal_item 12 (index_tuple 0 3 [3; 0; 0; 0]) ]
       else {| pd_upper := 0; pd_linp := [];
               pd_stray := fun _ => unused_item (index_tuple 0 0 []) |} |}.

(** A table whose only column was dropped: [atttypid] is [InvalidOid]. *)
Definition table_dropped : RelationData :=
  heap_relation 16386 RELKIND_RELATION
    {| attrs := [ {| atttypid := InvalidOid; atttypmod := -1 |} ]; tdtypeid := 0 |}
    [tid 0 1] page_a.

(** The namespaces of a session's temporary tables ([pg_temp_N]) and of their
    toast tables ([pg_toast_temp_N]); their ids are assigned at run time and
    are neither [pg_catalog] nor [pg_toast]. *)
Definition PG_TEMP_NAMESPACE : Z := 16399.
Definition PG_TOAST_TEMP_NAMESPACE : Z := 16400.

End Demo.

(** ** Further functions of the sources *)

(** [pg_index_checksum], checksum_tuple.c: the checksum of the index tuple at
    [offnum], seeded with its offset; [0] for an offset outside the page, an
    unused slot or a dead entry. *)
Definition pg_index_checksum `{Backend} (page : IndexPage) (offnum : Z) : Z :=
  if (offnum <? FirstOffsetNumber) || (PageGetMaxOffsetNumber page <? offnum) then 0
  else
    let lp := PageGetItemId page offnum in
    if negb (ItemIdIsUsed lp) || ItemIdIsDead lp then 0
    else
      let itup := PageGetItem page lp in
      let len := ItemIdGetLength lp in
      let checksum := pg_checksum_data (it_bytes itup) len offnum in
      let checksum := Z.lxor checksum offnum in
      if checksum =? CHECKSUM_NULL
      then Z.land (Z.lxor CHECKSUM_NULL offnum) 0xFFFFFFFE
      else checksum.

(** Body of the [for] loop of [pg_index_page_checksum], checksum_index.c. *)
Definition index_page_checksum_item `{Backend}
  (page : IndexPage) (indexTupDesc : TupleDescData)
  (page_checksum : Z) (offnum : Z) : Z :=
  let itemId := PageGetItemId page offnum in
  if negb (ItemIdIsUsed itemId) || ItemIdIsDead itemId then page_checksum
  else
    let itup := PageGetItem page itemId in
    Z.lxor page_checksum (pg_index_tuple_checksum itup indexTupDesc offnum).

Definition pg_index_page_checksum `{Backend}
  (page : IndexPage) (indexTupDesc : TupleDescData) : Z :=
  let maxoff := PageGetMaxOffsetNumber page in
  fold_left (index_page_checksum_item page indexTupDesc) (offsets_upto maxoff) 0.

(** [pg_checksum_tuple(reloid, tid, include_header)], checksumfuncs.c, on the
    relation [relation_open] returned.  The [PG_TRY] block only releases
    resources and rethrows. *)
Definition pg_checksum_tuple `{Backend}
  (rel : RelationData) (tid : ItemPointerData) (include_header : bool) : Z :=
  let page := rd_heap_block rel (ItemPointerGetBlockNumber tid) in
  let blkno := ItemPointerGetBlockNumber tid in
  let checksum :=
    pg_tuple_checksum page (ItemPointerGetOffsetNumber tid) blkno include_header in
  int32_of checksum.

(** [(int64) x], the cast in [PG_RETURN_INT64((int64) checksum)]. *)
Definition int64_of (x : Z) : Z :=
  let y := u64 x in if y <? 2 ^ 63 then y else y - 2 ^ 64.

(** Outcome of a SQL function guarded by [superuser()]: the privilege error
    of checksumfuncs.c:483; a scan PostgreSQL ended early, by a cancel
    request seen at [CHECK_FOR_INTERRUPTS] (checksum_database.c:168-169, 374)
    or by an error of [relation_open] or [ReadBuffer], which the checksum
    code does not catch, so that no value is returned; or what the guarded
    body did when it ran to its end. *)
Inductive guarded (A : Type) : Type :=
| InsufficientPrivilege
| Aborted
| Completed (r : result A).
Arguments InsufficientPrivilege {A}.
Arguments Aborted {A}.
Arguments Completed {A} r.

(** [pg_database_checksum(include_system, include_toast)], checksumfuncs.c.
    [args] are the arguments actually passed ([PG_NARGS] of them); both
    default to [false].  [scan_aborts] is PostgreSQL's part: whether a
    cancel request or a storage error ends the scan before its last row. *)
Definition pg_database_checksum `{Backend}
  (db : Database) (superuser : bool) (args : list bool) (scan_aborts : bool)
  : guarded Z :=
  let include_system := match args with a0 :: _ => a0 | [] => false end in
  let include_toast := match args with _ :: a1 :: _ => a1 | _ => false end in
  if negb superuser then InsufficientPrivilege
  else if scan_aborts then Aborted
  else
    Completed
      match pg_database_checksum_internal db (MyDatabaseId db)
              include_system include_toast None with
      | Ok checksum => Ok (int64_of checksum)
      | Err e => Err e
      end.

(** The column fingerprint once the remap has been applied to [checksum],
    lines 158-163 of checksum_column.c. *)
Definition column_remap (checksum attnum typid : Z) : Z :=
  if checksum =? CHECKSUM_NULL
  then Z.land (Z.lxor (Z.lxor CHECKSUM_NULL (u32 attnum)) typid) 0xFFFFFFFE
  else checksum.

(** A heap page is well typed when the transaction ids of its tuples fit
    their 32-bit fields. *)
Definition stamps_in_range (page : HeapPage) : Prop :=
  Forall (fun lp => 0 <= t_xmin (lp_item lp) < 2 ^ 32
                    /\ 0 <= t_xmax (lp_item lp) < 2 ^ 32) (pd_linp page).

(** More sample data. *)
Module Samples.

(** A catalog that also knows [cstring] (type 2275, [typlen = -2]). *)
Definition CSTRINGOID : Z := 2275.

Definition backend : Backend :=
  {| mix := Demo.fnv1a;
     SearchSysCache1 := fun typid =>
       if typid =? CSTRINGOID then Some {| typbyval := false; typlen := -2 |}
       else @SearchSysCache1 Demo.backend typid;
     PG_DETOAST_DATUM := DatumGetCString;
     VARSIZE_ANY := fun varlena => Z.of_nat (length varlena);
     heap_getattr := fun tuple attnum tupleDesc =>
       let user_data := skipn (Z.to_nat (t_hoff tuple)) (t_bytes tuple) in
       ({| datum_bytes := user_data; datum_pointer := Some user_data |},
        Nat.eqb (length user_data) 0) |}.

Definition cstring_datum (memory : list Z) : Datum :=
  {| datum_bytes := []; datum_pointer := Some memory |}.

(** A table whose second slot holds a row without user data; the sample
    backend reads its attributes as null. *)
Definition page_null : HeapPage :=
  Demo.heap_page [Demo.normal_item 28 Demo.row_a;
                  Demo.normal_item 24 (Demo.heap_tuple 7 0 [])].

Definition table_null : RelationData :=
  Demo.heap_relation 16387 RELKIND_RELATION Demo.two_columns
    [Demo.tid 0 1; Demo.tid 0 2] page_null.


(** A page whose only line pointer is dead and has no storage ([lp_len = 0]):
    the slot counts as used, and the header read through it has
    [t_hoff = 24]. *)
Definition page_dead : HeapPage :=
  Demo.heap_page
    [ {| lp_flags := LP_DEAD; lp_len := 0; lp_item := Demo.heap_tuple 7 0 [] |} ].

(** A database in which every relation id opens the index [Demo.index_a]. *)
Definition index_database : Database :=
  {| MyDatabaseId := 5; pg_class := []; relation_open := fun _ => Demo.index_a |}.

End Samples.

(** * Properties *)

(** ** Machine integer facts *)

Lemma u32_range x : 0 <= u32 x < 2 ^ 32.
Proof. unfold u32. apply Z.mod_pos_bound. lia. Qed.

Lemma u32_small x : 0 <= x < 2 ^ 32 -> u32 x = x.
Proof. intros Hx. unfold u32. now apply Z.mod_small. Qed.

Lemma u32_idem x : u32 (u32 x) = u32 x.
Proof. apply u32_small, u32_range. Qed.

Lemma u64_small x : 0 <= x < 2 ^ 64 -> u64 x = x.
Proof. intros Hx. unfold u64. now apply Z.mod_small. Qed.

(** A value below [2^n] has no bit at or above position [n]. *)
Lemma testbit_above n x i : 0 <= n -> 0 <= x < 2 ^ n -> n <= i -> Z.testbit x i = false.
Proof.
  intros Hn Hx Hi. rewrite <- (Z.mod_small x (2 ^ n)) by assumption.
  apply Z.mod_pow2_bits_high. lia.
Qed.

(** Conversely, a non-negative value with no bit at or above [n] is below [2^n]. *)
Lemma below_pow2 n x :
  0 <= n -> 0 <= x -> (forall i, n <= i -> Z.testbit x i = false) -> x < 2 ^ n.
Proof.
  intros Hn Hx Hbits.
  destruct (Z.eq_dec x 0) as [-> | Hnz]; [apply Z.pow_pos_nonneg; lia |].
  apply Z.log2_lt_pow2; [lia |].
  destruct (Z.lt_ge_cases (Z.log2 x) n) as [Hlt | Hge]; [exact Hlt |].
  assert (Hb : Z.testbit x (Z.log2 x) = true) by (apply Z.bit_log2; lia).
  rewrite (Hbits _ Hge) in Hb. discriminate.
Qed.

Lemma lor_bound n x y :
  0 <= n -> 0 <= x < 2 ^ n -> 0 <= y < 2 ^ n -> 0 <= Z.lor x y < 2 ^ n.
Proof.
  intros Hn Hx Hy.
  assert (H0 : 0 <= Z.lor x y) by (apply Z.lor_nonneg; lia).
  split; [exact H0 |]. apply below_pow2; try assumption.
  intros i Hi. rewrite Z.lor_spec.
  rewrite (testbit_above n x i), (testbit_above n y i) by assumption. reflexivity.
Qed.

Lemma lxor_cancel_l a x y : Z.lxor a x = Z.lxor a y -> x = y.
Proof.
  intros E.
  assert (E' : Z.lxor a (Z.lxor a x) = Z.lxor a (Z.lxor a y)) by now rewrite E.
  now rewrite <- !Z.lxor_assoc, !Z.lxor_nilpotent, !Z.lxor_0_l in E'.
Qed.

Lemma lxor_cancel_r a x y : Z.lxor x a = Z.lxor y a -> x = y.
Proof. rewrite !(Z.lxor_comm _ a). apply lxor_cancel_l. Qed.

(** [a XOR b = c XOR d] can be read as [a XOR c = b XOR d]. *)
Lemma lxor_swap_sides a b c d : Z.lxor a b = Z.lxor c d -> Z.lxor a c = Z.lxor b d.
Proof.
  intros E. apply Z.bits_inj'. intros i _.
  assert (Hb : Z.testbit (Z.lxor a b) i = Z.testbit (Z.lxor c d) i) by now rewrite E.
  rewrite !Z.lxor_spec in *.
  destruct (Z.testbit a i), (Z.testbit b i), (Z.testbit c i), (Z.testbit d i);
    cbn in *; congruence.
Qed.

(** Clearing the low bit never yields the all-ones pattern. *)
Lemma low_bit_cleared_not_null x : Z.land x 0xFFFFFFFE <> CHECKSUM_NULL.
Proof.
  intros E.
  assert (Hb : Z.testbit (Z.land x 0xFFFFFFFE) 0 = Z.testbit CHECKSUM_NULL 0)
    by now rewrite E.
  rewrite Z.land_spec, andb_false_r in Hb. discriminate.
Qed.

(** The collision remap, as every fingerprint function applies it. *)
Lemma remap_not_null c s :
  ((if c =? CHECKSUM_NULL then Z.land s 0xFFFFFFFE else c) =? CHECKSUM_NULL) = false.
Proof.
  destruct (Z.eqb_spec c CHECKSUM_NULL) as [E | N].
  - apply Z.eqb_neq, low_bit_cleared_not_null.
  - now apply Z.eqb_neq.
Qed.

(** ** Column checksum *)

(** C1.  [pg_column_checksum_internal] returns [CHECKSUM_NULL] exactly for
    null inputs: when it returns a fingerprint, that fingerprint equals
    [CHECKSUM_NULL] if and only if [isnull] holds.  It fails only on a
    non-null input whose type lookup fails or whose by-reference pointer is
    [NULL], so a null input always returns [CHECKSUM_NULL] and a non-null
    input never does. *)
Theorem column_checksum_null_iff `{Backend}
  (value : Datum) (isnull : bool) (typid typmod attnum : Z) :
  match pg_column_checksum_internal value isnull typid typmod attnum with
  | Ok fingerprint => (fingerprint =? CHECKSUM_NULL) = isnull
  | Err _ =>
      isnull = false /\ (SearchSysCache1 typid = None \/ DatumGetPointer value = None)
  end.
Proof.
  unfold pg_column_checksum_internal.
  destruct isnull; [reflexivity |].
  destruct (SearchSysCache1 typid) as [typeForm |]; [| split; [reflexivity | now left]].
  destruct (typbyval typeForm && (0 <? typlen typeForm)); [apply remap_not_null |].
  destruct (typlen typeForm =? -1); [apply remap_not_null |].
  destruct (typlen typeForm =? -2); [apply remap_not_null |].
  destruct (DatumGetPointer value); [apply remap_not_null |].
  split; [reflexivity | now right].
Qed.

(** ** Tuple checksum *)

Lemma location_hash_range blkno offnum :
  0 <= offnum < 2 ^ 16 -> 0 <= Z.lor (u32 (Z.shiftl blkno 16)) offnum < 2 ^ 32.
Proof.
  intros Hoff. apply lor_bound; [lia | apply u32_range |].
  split; [lia |]. apply Z.lt_trans with (2 ^ 16); [lia | reflexivity].
Qed.

(** The code's remap and the design's remap agree. *)
Lemma remap_agrees c seed :
  (if c =? CHECKSUM_NULL then Z.land (Z.lxor CHECKSUM_NULL seed) 0xFFFFFFFE else c)
  = Spec.null_mark_remap c seed.
Proof.
  unfold Spec.null_mark_remap, Spec.NULL_MARK.
  change (0xFFFFFFFF) with CHECKSUM_NULL.
  destruct (Z.eqb_spec c CHECKSUM_NULL) as [-> | _]; reflexivity.
Qed.

(** What [pg_tuple_checksum] computes once the slot is known to be valid,
    in use, and (header excluded) to hold user data. *)
Lemma pg_tuple_checksum_computed `{Backend}
  (page : HeapPage) (offnum blkno : Z) (include_header : bool) :
  let lp := PageGetItemId page offnum in
  let tuple := PageGetItem page lp in
  let location_hash := Z.lor (u32 (Z.shiftl blkno 16)) offnum in
  let len := if include_header then lp_len lp else u32 (lp_len lp - t_hoff tuple) in
  let data := if include_header then t_bytes tuple
              else skipn (Z.to_nat (t_hoff tuple)) (t_bytes tuple) in
  let raw := Z.lxor (pg_checksum_data data len location_hash) location_hash in
  let raw := if include_header then raw
             else Z.lxor raw (Z.lxor (t_xmin tuple) (t_xmax tuple)) in
  FirstOffsetNumber <= offnum <= PageGetMaxOffsetNumber page ->
  ItemIdIsUsed lp = true ->
  (include_header = false -> len <> 0) ->
  pg_tuple_checksum page offnum blkno include_header
  = if raw =? CHECKSUM_NULL
    then Z.land (Z.lxor CHECKSUM_NULL location_hash) 0xFFFFFFFE
    else raw.
Proof.
  intros lp tuple location_hash len data raw0 raw Hrange Hused Hlen.
  unfold pg_tuple_checksum.
  replace (offnum <? FirstOffsetNumber) with false by (symmetry; apply Z.ltb_ge; lia).
  replace (PageGetMaxOffsetNumber page <? offnum) with false
    by (symmetry; apply Z.ltb_ge; lia).
  cbn [orb]. fold lp. rewrite Hused. cbn [negb].
  unfold ItemIdGetLength, HeapTupleHeaderGetRawXmin, HeapTupleHeaderGetRawXmax.
  fold tuple. subst raw raw0 data len.
  destruct include_header; cbn [negb andb]; [reflexivity |].
  assert (Hpos : 0 < u32 (lp_len lp - t_hoff tuple)).
  { pose proof (u32_range (lp_len lp - t_hoff tuple)). specialize (Hlen eq_refl). lia. }
  replace (u32 (lp_len lp - t_hoff tuple) <=? 0) with false
    by (symmetry; apply Z.leb_gt; exact Hpos).
  reflexivity.
Qed.

(** C2.  For a valid offset naming a used slot whose selected span is not
    empty, [pg_tuple_checksum] is the composition of section 4.3: the 32-bit
    location seed [(blkno << 16) | offnum], the selected span mixed with
    that seed, XOR the seed, XOR [(xmin XOR xmax)] when the header is
    excluded, then the [NULL_MARK] remap. *)
Theorem pg_tuple_checksum_composition `{Backend}
  (page : HeapPage) (offnum blkno : Z) (include_header : bool) :
  let lp := PageGetItemId page offnum in
  let tuple := PageGetItem page lp in
  FirstOffsetNumber <= offnum <= PageGetMaxOffsetNumber page ->
  offnum < 2 ^ 16 ->
  ItemIdIsUsed lp = true ->
  0 <= t_hoff tuple ->
  0 <= lp_len lp < 2 ^ 32 ->
  (include_header = false -> t_hoff tuple < lp_len lp) ->
  pg_tuple_checksum page offnum blkno include_header
  = Spec.checksum_tuple
      (firstn (Z.to_nat (lp_len lp)) (t_bytes tuple)) (t_hoff tuple)
      offnum blkno include_header (t_xmin tuple) (t_xmax tuple).
Proof.
  intros lp tuple Hrange Hoff Hused Hhoff Hlen Hdata.
  assert (Hloc : 0 <= Z.lor (u32 (Z.shiftl blkno 16)) offnum < 2 ^ 32).
  { apply location_hash_range. unfold FirstOffsetNumber in Hrange. lia. }
  rewrite pg_tuple_checksum_computed; fold lp; fold tuple; try assumption.
  - rewrite remap_agrees. unfold Spec.checksum_tuple, Spec.location_seed.
    f_equal. unfold pg_checksum_data, Spec.select_span.
    rewrite (u32_small _ Hloc).
    destruct include_header.
    + rewrite (u32_small _ Hlen). reflexivity.
    + specialize (Hdata eq_refl).
      rewrite (u32_small (lp_len lp - t_hoff tuple)) by lia.
      rewrite (u32_small (lp_len lp - t_hoff tuple)) by lia.
      rewrite skipn_firstn_comm, Z2Nat.inj_sub by assumption. reflexivity.
  - intros E. specialize (Hdata E). rewrite E. rewrite u32_small by lia. lia.
Qed.

Lemma pg_tuple_checksum_composition_witness :
  @pg_tuple_checksum Demo.backend Demo.page_a 1 0 false
  = @Spec.checksum_tuple Demo.backend
      (firstn 28 (t_bytes Demo.row_a)) 24 1 0 false 100 0.
Proof.
  apply (@pg_tuple_checksum_composition Demo.backend Demo.page_a 1 0 false).
  - vm_compute. split; discriminate.
  - reflexivity.
  - reflexivity.
  - vm_compute. discriminate.
  - vm_compute. split; [discriminate | reflexivity].
  - intros _. reflexivity.
Defined.

(** X20.  [pg_tuple_checksum] answers with the zero fingerprint an offset
    outside [FirstOffsetNumber .. PageGetMaxOffsetNumber], an unused slot,
    and, with the header excluded, a tuple whose item length equals its
    header length exactly. *)
Theorem pg_tuple_checksum_invalid_position `{Backend}
  (page : HeapPage) (offnum blkno : Z) (include_header : bool) :
  let lp := PageGetItemId page offnum in
  offnum < FirstOffsetNumber \/ PageGetMaxOffsetNumber page < offnum
  \/ ItemIdIsUsed lp = false
  \/ (include_header = false /\ ItemIdGetLength lp = t_hoff (PageGetItem page lp)) ->
  pg_tuple_checksum page offnum blkno include_header = 0.
Proof.
  intros lp Hcases. unfold pg_tuple_checksum. fold lp.
  destruct (Z.ltb_spec offnum FirstOffsetNumber) as [_ | Hlo]; [reflexivity |].
  destruct (Z.ltb_spec (PageGetMaxOffsetNumber page) offnum) as [_ | Hhi]; [reflexivity |].
  cbn [orb].
  destruct (ItemIdIsUsed lp) eqn:Hused; cbn [negb]; [| reflexivity].
  destruct Hcases as [Hc | [Hc | [Hc | [Hih Hempty]]]]; try lia; try discriminate.
  subst include_header. cbn [negb andb].
  rewrite Hempty, Z.sub_diag. reflexivity.
Qed.

Lemma pg_tuple_checksum_invalid_position_witness :
  @pg_tuple_checksum Demo.backend Demo.page_a 0 0 false = 0
  /\ @pg_tuple_checksum Demo.backend Demo.page_a 4 0 true = 0
  /\ @pg_tuple_checksum Demo.backend Demo.page_a 2 0 true = 0
  /\ @pg_tuple_checksum Demo.backend Demo.page_a 3 0 false = 0.
Proof.
  split; [| split; [| split]].
  - apply (@pg_tuple_checksum_invalid_position Demo.backend Demo.page_a 0 0 false).
    left. reflexivity.
  - apply (@pg_tuple_checksum_invalid_position Demo.backend Demo.page_a 4 0 true).
    right; left. reflexivity.
  - apply (@pg_tuple_checksum_invalid_position Demo.backend Demo.page_a 2 0 true).
    right; right; left. reflexivity.
  - apply (@pg_tuple_checksum_invalid_position Demo.backend Demo.page_a 3 0 false).
    right; right; right. split; reflexivity.
Defined.

(** ** Location and version binding of the tuple checksum *)

Lemma pg_tuple_checksum_data_only `{Backend} (page : HeapPage) (offnum blkno : Z) :
  data_slot page offnum ->
  pg_tuple_checksum page offnum blkno false
  = if raw_tuple_checksum page offnum blkno =? CHECKSUM_NULL
    then Z.land (Z.lxor CHECKSUM_NULL (location_hash blkno offnum)) 0xFFFFFFFE
    else raw_tuple_checksum page offnum blkno.
Proof.
  intros (Hrange & Hused & Hlen).
  rewrite pg_tuple_checksum_computed by (try assumption; intros _; exact Hlen).
  unfold raw_tuple_checksum, data_span, data_len, mvcc_info, visibility_stamp,
    pg_checksum_data, location_hash, ItemIdGetLength,
    HeapTupleHeaderGetRawXmin, HeapTupleHeaderGetRawXmax.
  cbn [fst snd]. rewrite u32_idem. reflexivity.
Qed.

Lemma pg_tuple_checksum_no_sentinel `{Backend} (page : HeapPage) (offnum blkno : Z) :
  data_slot page offnum ->
  raw_tuple_checksum page offnum blkno <> CHECKSUM_NULL ->
  pg_tuple_checksum page offnum blkno false = raw_tuple_checksum page offnum blkno.
Proof.
  intros Hslot Hraw. rewrite pg_tuple_checksum_data_only by assumption.
  destruct (Z.eqb_spec (raw_tuple_checksum page offnum blkno) CHECKSUM_NULL);
    [contradiction | reflexivity].
Qed.

(** Block numbers that differ by a multiple of [2^16] give the same
    [location_hash], whatever the mixer. *)
Lemma location_hash_wraps blkno offnum :
  location_hash (blkno + 2 ^ 16) offnum = location_hash blkno offnum.
Proof.
  unfold location_hash, u32. f_equal.
  rewrite !Z.shiftl_mul_pow2 by lia.
  replace ((blkno + 2 ^ 16) * 2 ^ 16) with (blkno * 2 ^ 16 + 1 * 2 ^ 32) by lia.
  apply Z.mod_add. lia.
Qed.

Lemma pg_tuple_checksum_block_wraps `{Backend}
  (page : HeapPage) (offnum blkno : Z) (include_header : bool) :
  pg_tuple_checksum page offnum (blkno + 2 ^ 16) include_header
  = pg_tuple_checksum page offnum blkno include_header.
Proof.
  unfold pg_tuple_checksum. cbv zeta.
  fold (location_hash (blkno + 2 ^ 16) offnum). fold (location_hash blkno offnum).
  now rewrite location_hash_wraps.
Qed.

(** X18.  Two rows that hold user data, with identical data bytes and
    identical visibility stamps, header excluded, neither hitting the
    sentinel remap, at locations whose 32-bit location hashes differ: their
    fingerprints differ exactly when the two mixed values do not differ by
    the XOR of the two hashes; in particular they differ whenever the mixer
    yields the same intermediate value for both. *)
Theorem tuple_checksum_location_binding `{Backend}
  (page1 page2 : HeapPage) (off1 blk1 off2 blk2 : Z) :
  let seed1 := location_hash blk1 off1 in
  let seed2 := location_hash blk2 off2 in
  let mixed1 := u32 (mix (data_span page1 off1) (u32 seed1)) in
  let mixed2 := u32 (mix (data_span page2 off2) (u32 seed2)) in
  data_slot page1 off1 -> data_slot page2 off2 ->
  data_span page1 off1 = data_span page2 off2 ->
  visibility_stamp page1 off1 = visibility_stamp page2 off2 ->
  raw_tuple_checksum page1 off1 blk1 <> CHECKSUM_NULL ->
  raw_tuple_checksum page2 off2 blk2 <> CHECKSUM_NULL ->
  seed1 <> seed2 ->
  (pg_tuple_checksum page1 off1 blk1 false <> pg_tuple_checksum page2 off2 blk2 false
   <-> Z.lxor mixed1 mixed2 <> Z.lxor seed1 seed2)
  /\ (mixed1 = mixed2 ->
      pg_tuple_checksum page1 off1 blk1 false <> pg_tuple_checksum page2 off2 blk2 false).
Proof.
  intros seed1 seed2 mixed1 mixed2 Hslot1 Hslot2 Hspan Hstamp Hraw1 Hraw2 Hseed.
  rewrite !pg_tuple_checksum_no_sentinel by assumption.
  unfold raw_tuple_checksum, mvcc_info. rewrite Hstamp.
  fold seed1 seed2 mixed1 mixed2.
  set (m := Z.lxor (fst (visibility_stamp page2 off2)) (snd (visibility_stamp page2 off2))).
  assert (Hiff : Z.lxor (Z.lxor mixed1 seed1) m = Z.lxor (Z.lxor mixed2 seed2) m
                 <-> Z.lxor mixed1 mixed2 = Z.lxor seed1 seed2).
  { split; intros E.
    - apply lxor_cancel_r in E. apply lxor_swap_sides. exact E.
    - f_equal. apply lxor_swap_sides. exact E. }
  split.
  - split; intros Hneq E; apply Hneq; apply Hiff; exact E.
  - intros Hmixed E. apply Hiff in E.
    rewrite Hmixed, Z.lxor_nilpotent in E. symmetry in E.
    apply Z.lxor_eq in E. contradiction.
Qed.

Lemma tuple_checksum_location_binding_witness :
  @pg_tuple_checksum Demo.backend Demo.page_a 1 0 false
  <> @pg_tuple_checksum Demo.backend Demo.page_a 1 1 false
  <-> Z.lxor (u32 (Demo.fnv1a (data_span Demo.page_a 1) (u32 (location_hash 0 1))))
        (u32 (Demo.fnv1a (data_span Demo.page_a 1) (u32 (location_hash 1 1))))
      <> Z.lxor (location_hash 0 1) (location_hash 1 1).
Proof.
  apply (@tuple_checksum_location_binding Demo.backend Demo.page_a Demo.page_a 1 0 1 1).
  - vm_compute. repeat split; discriminate.
  - vm_compute. repeat split; discriminate.
  - reflexivity.
  - reflexivity.
  - vm_compute. discriminate.
  - vm_compute. discriminate.
  - vm_compute. discriminate.
Defined.

(** C3.  The code at the failing input: the rows at (block 0, offset 1)
    and at (block 65536, offset 1) hold the same bytes and stamps, the slot
    holds user data, and the two fingerprints are equal under every mixer,
    because the 32-bit [blkno << 16] drops the upper 16 bits of the block
    number. *)
Lemma tuple_checksum_location_collision :
  (0, 1) <> (65536, 1)
  /\ data_slot Demo.page_a 1
  /\ forall B : Backend,
       @pg_tuple_checksum B Demo.page_a 1 0 false
       = @pg_tuple_checksum B Demo.page_a 1 65536 false.
Proof.
  split; [discriminate |]. split.
  - vm_compute. repeat split; discriminate.
  - intros B. reflexivity.
Qed.

(** X19.  Two rows that hold user data, at the same location and with
    identical data bytes, header excluded, neither hitting the sentinel
    remap: their fingerprints differ exactly when [xmin XOR xmax] differs
    between the two visibility stamps; in particular they differ when the
    stamps differ in one of the two transaction ids only. *)
Theorem tuple_checksum_version_binding `{Backend}
  (page1 page2 : HeapPage) (offnum blkno : Z) :
  let stamp1 := visibility_stamp page1 offnum in
  let stamp2 := visibility_stamp page2 offnum in
  data_slot page1 offnum -> data_slot page2 offnum ->
  data_span page1 offnum = data_span page2 offnum ->
  raw_tuple_checksum page1 offnum blkno <> CHECKSUM_NULL ->
  raw_tuple_checksum page2 offnum blkno <> CHECKSUM_NULL ->
  (pg_tuple_checksum page1 offnum blkno false <> pg_tuple_checksum page2 offnum blkno false
   <-> Z.lxor (fst stamp1) (snd stamp1) <> Z.lxor (fst stamp2) (snd stamp2))
  /\ (fst stamp1 = fst stamp2 -> snd stamp1 <> snd stamp2 ->
      pg_tuple_checksum page1 offnum blkno false
      <> pg_tuple_checksum page2 offnum blkno false)
  /\ (snd stamp1 = snd stamp2 -> fst stamp1 <> fst stamp2 ->
      pg_tuple_checksum page1 offnum blkno false
      <> pg_tuple_checksum page2 offnum blkno false).
Proof.
  intros stamp1 stamp2 Hslot1 Hslot2 Hspan Hraw1 Hraw2.
  rewrite !pg_tuple_checksum_no_sentinel by assumption.
  unfold raw_tuple_checksum, mvcc_info. rewrite Hspan. fold stamp1 stamp2.
  assert (Hiff : forall a b c, Z.lxor a b <> Z.lxor a c <-> b <> c).
  { intros a b c. split; intros Hneq Heq; apply Hneq.
    - now rewrite Heq.
    - now apply lxor_cancel_l in Heq. }
  split; [apply Hiff |]. split.
  - intros Hmin Hmax. apply Hiff. rewrite Hmin. now apply Hiff.
  - intros Hmax Hmin. apply Hiff. rewrite Hmax. intros E.
    apply lxor_cancel_r in E. contradiction.
Qed.

Lemma tuple_checksum_version_binding_witness :
  @pg_tuple_checksum Demo.backend Demo.page_a 1 0 false
  <> @pg_tuple_checksum Demo.backend Demo.page_4_6 1 0 false
  <-> Z.lxor 100 0 <> Z.lxor 4 6.
Proof.
  apply (@tuple_checksum_version_binding Demo.backend Demo.page_a Demo.page_4_6 1 0).
  - vm_compute. repeat split; discriminate.
  - vm_compute. repeat split; discriminate.
  - reflexivity.
  - vm_compute. discriminate.
  - vm_compute. discriminate.
Defined.

(** C4.  The code at the failing input: the stamps (4, 6) and (5, 7)
    differ, the two rows hold the same user data at the same location, and
    since only [xmin XOR xmax] is folded in and [4 XOR 6 = 5 XOR 7], the two
    fingerprints are equal under every mixer. *)
Lemma tuple_checksum_stamp_collision :
  visibility_stamp Demo.page_4_6 1 <> visibility_stamp Demo.page_5_7 1
  /\ data_span Demo.page_4_6 1 = data_span Demo.page_5_7 1
  /\ data_slot Demo.page_4_6 1 /\ data_slot Demo.page_5_7 1
  /\ forall B : Backend,
       @pg_tuple_checksum B Demo.page_4_6 1 0 false
       = @pg_tuple_checksum B Demo.page_5_7 1 0 false.
Proof.
  split; [discriminate |]. split; [reflexivity |].
  split; [vm_compute; repeat split; discriminate |].
  split; [vm_compute; repeat split; discriminate |].
  intros B. reflexivity.
Qed.

(** ** Aggregates *)

Lemma xor_fold_app l1 l2 : xor_fold (l1 ++ l2) = Z.lxor (xor_fold l1) (xor_fold l2).
Proof.
  induction l1 as [| x l1 IH]; cbn [xor_fold fold_right app].
  - now rewrite Z.lxor_0_l.
  - fold (xor_fold (l1 ++ l2)). fold (xor_fold l1). rewrite IH.
    symmetry. apply Z.lxor_assoc.
Qed.

Lemma xor_fold_perm l l' : Permutation l l' -> xor_fold l = xor_fold l'.
Proof.
  induction 1 as [| x l l' _ IH | x y l | l l' l'' _ IH1 _ IH2]; cbn [xor_fold fold_right].
  - reflexivity.
  - fold (xor_fold l) (xor_fold l'). now rewrite IH.
  - rewrite <- !Z.lxor_assoc. f_equal. apply Z.lxor_comm.
  - now rewrite IH1.
Qed.

(** A loop whose body XORs a few terms into one component of its state
    computes the XOR-fold of all those terms. *)
Lemma fold_left_xor {S A : Type} (g : S -> Z) (f : S -> A -> S) (w : A -> list Z) :
  (forall s x, g (f s x) = Z.lxor (g s) (xor_fold (w x))) ->
  forall l s, g (fold_left f l s) = Z.lxor (g s) (xor_fold (flat_map w l)).
Proof.
  intros Hstep l. induction l as [| x l IH]; intros s; cbn [fold_left flat_map].
  - cbn. now rewrite Z.lxor_0_r.
  - rewrite IH, Hstep, xor_fold_app. apply Z.lxor_assoc.
Qed.

Lemma flat_map_singleton {A B : Type} (f : A -> B) l :
  flat_map (fun x => [f x]) l = map f l.
Proof. induction l as [| x l IH]; cbn; [reflexivity | now rewrite IH]. Qed.

Lemma xor_fold_single x : xor_fold [x] = x.
Proof. cbn. apply Z.lxor_0_r. Qed.

Lemma map_flat_map {A B C : Type} (f : B -> C) (g : A -> list B) l :
  map f (flat_map g l) = flat_map (fun x => map f (g x)) l.
Proof.
  induction l as [| x l IH]; cbn; [reflexivity |]. now rewrite map_app, IH.
Qed.

Lemma fold_left_xor_from_zero {A : Type} (f : Z -> A -> Z) (w : A -> list Z) l :
  (forall s x, f s x = Z.lxor s (xor_fold (w x))) ->
  fold_left f l 0 = xor_fold (flat_map w l).
Proof.
  intros Hstep. rewrite (fold_left_xor (fun s => s) f w Hstep). apply Z.lxor_0_l.
Qed.

Lemma pg_checksum_table_xor `{Backend} (rel : RelationData) (include_header : bool) :
  pg_checksum_table rel include_header
  = int32_of (xor_fold (table_fingerprints rel include_header)).
Proof.
  unfold pg_checksum_table, table_fingerprints. f_equal.
  rewrite <- flat_map_singleton. apply fold_left_xor_from_zero.
  intros s t_self. now rewrite xor_fold_single.
Qed.

Lemma index_checksum_item_xor `{Backend} tupdesc page s offnum :
  index_checksum_item tupdesc page s offnum
  = Z.lxor s (xor_fold (index_item_fingerprints tupdesc page offnum)).
Proof.
  unfold index_checksum_item, index_item_fingerprints.
  destruct (negb (ItemIdIsUsed (PageGetItemId page offnum))
            || ItemIdIsDead (PageGetItemId page offnum)).
  - cbn. now rewrite Z.lxor_0_r.
  - now rewrite xor_fold_single.
Qed.

Lemma index_checksum_block_xor `{Backend} rel s blkno :
  index_checksum_block rel s blkno
  = Z.lxor s (xor_fold (index_block_fingerprints rel blkno)).
Proof.
  unfold index_checksum_block, index_block_fingerprints.
  destruct (PageIsNew (rd_index_block rel blkno)).
  - cbn. now rewrite Z.lxor_0_r.
  - apply (fold_left_xor (fun s => s)). intros; apply index_checksum_item_xor.
Qed.

Lemma pg_checksum_index_xor `{Backend} (rel : RelationData) :
  pg_checksum_index rel = int32_of (xor_fold (index_fingerprints rel)).
Proof.
  unfold pg_checksum_index, index_fingerprints. f_equal.
  apply fold_left_xor_from_zero. intros; apply index_checksum_block_xor.
Qed.

(** The same for the 64-bit accumulator of the database scan. *)

Lemma process_heap_tuple_xor `{Backend} rel relid state t_self :
  checksum (process_heap_tuple rel relid state t_self)
  = Z.lxor (checksum state)
      (xor_fold [tuple_contribution (tuple_fingerprint rel false t_self) relid]).
Proof. now rewrite xor_fold_single. Qed.

Lemma process_index_item_xor `{Backend} idxRel page state offnum :
  checksum (process_index_item idxRel page state offnum)
  = Z.lxor (checksum state)
      (xor_fold (map (fun fp => index_contribution fp (rd_id idxRel))
                   (index_item_fingerprints (rd_att idxRel) page offnum))).
Proof.
  unfold process_index_item, index_item_fingerprints.
  destruct (negb (ItemIdIsUsed (PageGetItemId page offnum))
            || ItemIdIsDead (PageGetItemId page offnum)); cbn [map].
  - cbn. now rewrite Z.lxor_0_r.
  - now rewrite xor_fold_single.
Qed.

Lemma process_index_block_xor `{Backend} idxRel state blkno :
  checksum (process_index_block idxRel state blkno)
  = Z.lxor (checksum state)
      (xor_fold (map (fun fp => index_contribution fp (rd_id idxRel))
                   (index_block_fingerprints idxRel blkno))).
Proof.
  unfold process_index_block, index_block_fingerprints.
  destruct (PageIsNew (rd_index_block idxRel blkno)).
  - cbn. now rewrite Z.lxor_0_r.
  - rewrite map_flat_map. cbn [incr_n_pages checksum].
    apply (fold_left_xor checksum). intros; apply process_index_item_xor.
Qed.

Lemma process_index_for_checksum_xor `{Backend} idxRel state :
  checksum (process_index_for_checksum idxRel state)
  = Z.lxor (checksum state)
      (xor_fold (map (fun fp => index_contribution fp (rd_id idxRel))
                   (index_fingerprints idxRel))).
Proof.
  unfold process_index_for_checksum, index_fingerprints. rewrite map_flat_map.
  apply (fold_left_xor checksum). intros; apply process_index_block_xor.
Qed.

Lemma process_relation_for_checksum_xor `{Backend} db relid state :
  checksum (process_relation_for_checksum db relid state)
  = Z.lxor (checksum state) (xor_fold (relation_contributions db relid)).
Proof.
  unfold process_relation_for_checksum, relation_contributions.
  destruct (supported_relkind (rd_relkind (relation_open db relid))); cbn [negb].
  - destruct (Ascii.eqb (rd_relkind (relation_open db relid)) RELKIND_INDEX); cbn [negb].
    + now rewrite process_index_for_checksum_xor.
    + unfold table_fingerprints. rewrite map_map, <- flat_map_singleton.
      rewrite (fold_left_xor checksum _
                 (fun t_self =>
                    [tuple_contribution
                       (tuple_fingerprint (relation_open db relid) false t_self) relid])).
      * reflexivity.
      * intros; apply process_heap_tuple_xor.
  - cbn. now rewrite Z.lxor_0_r.
Qed.

Lemma database_checksum_step_skipped `{Backend} db include_system include_toast cb state c :
  relation_skipped include_system include_toast c = true ->
  database_checksum_step db include_system include_toast cb state c = state.
Proof.
  unfold relation_skipped, database_checksum_step. intros Hskip.
  destruct (negb include_system
            && ((relnamespace c =? PG_CATALOG_NAMESPACE)
                || (relnamespace c =? PG_TOAST_NAMESPACE))); [reflexivity |].
  destruct (negb include_toast && Ascii.eqb (relkind c) RELKIND_TOASTVALUE); [reflexivity |].
  destruct (Ascii.eqb (relpersistence c) RELPERSISTENCE_UNLOGGED); [reflexivity |].
  discriminate.
Qed.

Lemma database_checksum_step_processed `{Backend} db include_system include_toast cb state c :
  relation_skipped include_system include_toast c = false ->
  database_checksum_step db include_system include_toast cb state c
  = let state' := process_relation_for_checksum db (oid c) state in
    match cb with Some callback => callback state' | None => state' end.
Proof.
  unfold relation_skipped, database_checksum_step. intros Hskip.
  destruct (negb include_system
            && ((relnamespace c =? PG_CATALOG_NAMESPACE)
                || (relnamespace c =? PG_TOAST_NAMESPACE))); [discriminate |].
  destruct (negb include_toast && Ascii.eqb (relkind c) RELKIND_TOASTVALUE); [discriminate |].
  destruct (Ascii.eqb (relpersistence c) RELPERSISTENCE_UNLOGGED); [discriminate |].
  reflexivity.
Qed.

Lemma database_checksum_step_xor `{Backend} db include_system include_toast state c :
  checksum (database_checksum_step db include_system include_toast None state c)
  = Z.lxor (checksum state)
      (xor_fold (class_contributions db include_system include_toast c)).
Proof.
  unfold class_contributions.
  destruct (relation_skipped include_system include_toast c) eqn:Hskip.
  - rewrite database_checksum_step_skipped by assumption. cbn. now rewrite Z.lxor_0_r.
  - rewrite database_checksum_step_processed by assumption.
    apply process_relation_for_checksum_xor.
Qed.

Lemma database_checksum_scan_xor `{Backend} db include_system include_toast classes :
  checksum (database_checksum_scan db include_system include_toast None classes)
  = xor_fold (flat_map (class_contributions db include_system include_toast) classes).
Proof.
  unfold database_checksum_scan.
  rewrite (fold_left_xor checksum _ (class_contributions db include_system include_toast)).
  - apply Z.lxor_0_l.
  - intros; apply database_checksum_step_xor.
Qed.

(** C5.  The table, index and database aggregates are XOR-folds, starting
    from [0], of the per-entry contributions; they do not depend on the order
    in which the scan returns tuples, index blocks or catalog rows; and an
    aggregate over no entries is [0]. *)
Theorem aggregate_order_independent `{Backend}
  (rel idx : RelationData) (include_header : bool)
  (db : Database) (dboid : Z) (include_system include_toast : bool)
  (state : DatabaseChecksumState)
  (scan scan' : list ItemPointerData) (blocks blocks' : list Z)
  (classes classes' : list FormData_pg_class) :
  Permutation scan scan' -> Permutation blocks blocks' -> Permutation classes classes' ->
  (pg_checksum_table rel include_header
   = int32_of (xor_fold (table_fingerprints rel include_header))
   /\ pg_checksum_index idx = int32_of (xor_fold (index_fingerprints idx))
   /\ checksum (database_checksum_scan db include_system include_toast None (pg_class db))
      = xor_fold (database_contributions db include_system include_toast))
  /\ (pg_checksum_table (with_scan rel scan) include_header
      = pg_checksum_table (with_scan rel scan') include_header
      /\ fold_left (index_checksum_block idx) blocks 0
         = fold_left (index_checksum_block idx) blocks' 0
      /\ checksum (fold_left (process_heap_tuple rel (rd_id rel)) scan state)
         = checksum (fold_left (process_heap_tuple rel (rd_id rel)) scan' state)
      /\ pg_database_checksum_internal (with_classes db classes) dboid
           include_system include_toast None
         = pg_database_checksum_internal (with_classes db classes') dboid
             include_system include_toast None)
  /\ (pg_checksum_table (with_scan rel []) include_header = 0
      /\ (index_fingerprints idx = [] -> pg_checksum_index idx = 0)
      /\ pg_database_checksum_internal (with_classes db []) (MyDatabaseId db)
           include_system include_toast None = Ok 0).
Proof.
  intros Hscan Hblocks Hclasses. split; [| split].
  - split; [apply pg_checksum_table_xor |].
    split; [apply pg_checksum_index_xor | apply database_checksum_scan_xor].
  - split; [| split; [| split]].
    + rewrite !pg_checksum_table_xor. f_equal. apply xor_fold_perm.
      unfold table_fingerprints. cbn [with_scan rd_scan].
      apply Permutation_map with (f := tuple_fingerprint (with_scan rel scan) include_header)
        in Hscan. exact Hscan.
    + rewrite !(fold_left_xor_from_zero _ (index_block_fingerprints idx))
        by (intros; apply index_checksum_block_xor).
      apply xor_fold_perm, Permutation_flat_map, Hblocks.
    + rewrite !(fold_left_xor checksum _
                  (fun t_self =>
                     [tuple_contribution (tuple_fingerprint rel false t_self) (rd_id rel)]))
        by (intros; apply process_heap_tuple_xor).
      f_equal. apply xor_fold_perm, Permutation_flat_map, Hscan.
    + unfold pg_database_checksum_internal. cbn [with_classes MyDatabaseId pg_class].
      destruct (OidIsValid dboid && negb (dboid =? MyDatabaseId db)); [reflexivity |].
      f_equal. rewrite !database_checksum_scan_xor.
      apply xor_fold_perm. apply Permutation_flat_map. exact Hclasses.
  - split; [reflexivity |]. split.
    + intros Hnone. rewrite pg_checksum_index_xor, Hnone. reflexivity.
    + unfold pg_database_checksum_internal. cbn [with_classes MyDatabaseId pg_class].
      rewrite Z.eqb_refl. cbn [negb]. rewrite andb_false_r. reflexivity.
Qed.

Lemma aggregate_order_independent_witness :
  @pg_checksum_table Demo.backend
    (with_scan Demo.table_a [Demo.tid 0 1; Demo.tid 0 3]) false
  = @pg_checksum_table Demo.backend
      (with_scan Demo.table_a [Demo.tid 0 3; Demo.tid 0 1]) false
  /\ @pg_database_checksum_internal Demo.backend
       (with_classes (Demo.database RELKIND_RELATION [])
          [ Demo.class_row 16384 Demo.PG_PUBLIC_NAMESPACE RELKIND_RELATION
              RELPERSISTENCE_PERMANENT;
            Demo.class_row 16385 Demo.PG_PUBLIC_NAMESPACE RELKIND_RELATION
              RELPERSISTENCE_PERMANENT ])
       5 false false None
     = @pg_database_checksum_internal Demo.backend
         (with_classes (Demo.database RELKIND_RELATION [])
            [ Demo.class_row 16385 Demo.PG_PUBLIC_NAMESPACE RELKIND_RELATION
                RELPERSISTENCE_PERMANENT;
              Demo.class_row 16384 Demo.PG_PUBLIC_NAMESPACE RELKIND_RELATION
                RELPERSISTENCE_PERMANENT ])
         5 false false None.
Proof.
  pose proof
    (@aggregate_order_independent Demo.backend Demo.table_a Demo.index_a false
       (Demo.database RELKIND_RELATION []) 5 false false (initial_state false false)
       [Demo.tid 0 1; Demo.tid 0 3] [Demo.tid 0 3; Demo.tid 0 1]
       [0; 1] [1; 0]
       [ Demo.class_row 16384 Demo.PG_PUBLIC_NAMESPACE RELKIND_RELATION
           RELPERSISTENCE_PERMANENT;
         Demo.class_row 16385 Demo.PG_PUBLIC_NAMESPACE RELKIND_RELATION
           RELPERSISTENCE_PERMANENT ]
       [ Demo.class_row 16385 Demo.PG_PUBLIC_NAMESPACE RELKIND_RELATION
           RELPERSISTENCE_PERMANENT;
         Demo.class_row 16384 Demo.PG_PUBLIC_NAMESPACE RELKIND_RELATION
           RELPERSISTENCE_PERMANENT ]
       (perm_swap _ _ _) (perm_swap _ _ _) (perm_swap _ _ _))
    as (_ & (Htable & _ & _ & Hdb) & _).
  split; [exact Htable | exact Hdb].
Defined.

(** ** Database-level contributions *)

(** A 64-bit term holds the fingerprint in its high half and the relation
    id in its low half. *)
Lemma contribution_high_low (hi lo : Z) :
  0 <= hi < 2 ^ 32 -> 0 <= lo < 2 ^ 32 ->
  Z.shiftr (Z.lor (u64 (Z.shiftl hi 32)) lo) 32 = hi
  /\ Z.land (Z.lor (u64 (Z.shiftl hi 32)) lo) (Z.ones 32) = lo.
Proof.
  intros Hhi Hlo.
  assert (Hshift : u64 (Z.shiftl hi 32) = Z.shiftl hi 32).
  { apply u64_small. rewrite Z.shiftl_mul_pow2 by lia.
    change (2 ^ 64) with (2 ^ 32 * 2 ^ 32). nia. }
  rewrite Hshift. split.
  - rewrite Z.shiftr_lor, Z.shiftr_shiftl_l, Z.sub_diag, Z.shiftl_0_r by lia.
    rewrite Z.shiftr_div_pow2, Z.div_small by lia. apply Z.lor_0_r.
  - rewrite Z.land_lor_distr_l, !Z.land_ones by lia.
    rewrite Z.shiftl_mul_pow2, Z.mod_mul, Z.mod_small by lia. apply Z.lor_0_l.
Qed.

Lemma contribution_injective (hi lo hi' lo' : Z) :
  0 <= hi < 2 ^ 32 -> 0 <= lo < 2 ^ 32 -> 0 <= hi' < 2 ^ 32 -> 0 <= lo' < 2 ^ 32 ->
  Z.lor (u64 (Z.shiftl hi 32)) lo = Z.lor (u64 (Z.shiftl hi' 32)) lo' ->
  hi = hi' /\ lo = lo'.
Proof.
  intros Hhi Hlo Hhi' Hlo' E.
  destruct (contribution_high_low hi lo Hhi Hlo) as [H1 H2].
  destruct (contribution_high_low hi' lo' Hhi' Hlo') as [H1' H2'].
  rewrite E in H1, H2. split; congruence.
Qed.

(** C6 (as amended).  Row and index contributions to the 64-bit database
    checksum use one and the same term: the fingerprint shifted into the
    high 32 bits, the relation id in the low 32 bits.  A row term and an
    index term are equal exactly when their fingerprints and their relation
    ids are equal; only the relation id tells the two kinds apart. *)
Theorem contributions_share_layout (fp relid fp' relid' : Z) :
  index_contribution fp relid = tuple_contribution fp relid
  /\ (tuple_contribution fp relid = index_contribution fp' relid'
      <-> u32 fp = u32 fp' /\ u32 relid = u32 relid').
Proof.
  split; [reflexivity |]. unfold tuple_contribution, index_contribution. split.
  - apply contribution_injective; apply u32_range.
  - intros [-> ->]. reflexivity.
Qed.

(** C6 fails as stated: for fingerprint 7 and relation id 16384 the row term
    and the index term are the same 64-bit value. *)
Lemma row_and_index_terms_alias :
  tuple_contribution 7 16384 = 30064787456
  /\ index_contribution 7 16384 = 30064787456.
Proof. split; reflexivity. Qed.

Lemma tuple_contribution_nonzero (fp relid : Z) :
  u32 relid <> 0 -> tuple_contribution fp relid <> 0.
Proof.
  unfold tuple_contribution. intros Hrelid E.
  apply Z.lor_eq_0_iff in E. tauto.
Qed.

(** ** Inclusion filters of the database scan *)

Lemma database_checksum_step_unlogged `{Backend}
  db include_system include_toast cb state c :
  not_unlogged c = false ->
  database_checksum_step db include_system include_toast cb state c = state.
Proof.
  unfold not_unlogged. intros Hu. apply database_checksum_step_skipped.
  unfold relation_skipped. apply negb_false_iff in Hu. rewrite Hu. apply orb_true_r.
Qed.

(** Rows on which the loop body does nothing can be dropped from the scan. *)
Lemma fold_left_skip {S A : Type} (f : S -> A -> S) (keep : A -> bool) :
  (forall s x, keep x = false -> f s x = s) ->
  forall l s, fold_left f l s = fold_left f (filter keep l) s.
Proof.
  intros Hskip l. induction l as [| x l IH]; intros s; cbn [fold_left filter].
  - reflexivity.
  - destruct (keep x) eqn:Hk; cbn [fold_left].
    + apply IH.
    + rewrite (Hskip s x Hk). apply IH.
Qed.

(** C7 (as amended).  The database scan always excludes unlogged relations:
    whatever the two inclusion flags and the progress callback, a row of
    [pg_class] with [relpersistence = 'u'] leaves the state untouched, and
    the result is the one obtained with all such rows removed.  Temporary
    relations are not covered by this filter. *)
Theorem unlogged_relations_excluded `{Backend}
  (db : Database) (dboid : Z) (include_system include_toast : bool)
  (progress_callback : checksum_progress_callback)
  (state : DatabaseChecksumState) (classForm : FormData_pg_class) :
  (relpersistence classForm = RELPERSISTENCE_UNLOGGED ->
   database_checksum_step db include_system include_toast progress_callback
     state classForm = state)
  /\ pg_database_checksum_internal db dboid include_system include_toast progress_callback
     = pg_database_checksum_internal
         (with_classes db (filter not_unlogged (pg_class db))) dboid
         include_system include_toast progress_callback.
Proof.
  split.
  - intros Hu. apply database_checksum_step_unlogged.
    unfold not_unlogged. rewrite Hu. reflexivity.
  - unfold pg_database_checksum_internal, database_checksum_scan.
    cbn [with_classes MyDatabaseId pg_class].
    destruct (OidIsValid dboid && negb (dboid =? MyDatabaseId db)); [reflexivity |].
    do 2 f_equal. apply fold_left_skip.
    intros s x Hx. now apply database_checksum_step_unlogged.
Qed.

Lemma unlogged_relations_excluded_witness :
  @database_checksum_step Demo.backend (Demo.database RELKIND_RELATION [])
    true true None (initial_state true true)
    (Demo.class_row 16384 Demo.PG_PUBLIC_NAMESPACE RELKIND_RELATION RELPERSISTENCE_UNLOGGED)
  = initial_state true true.
Proof.
  apply (@unlogged_relations_excluded Demo.backend (Demo.database RELKIND_RELATION [])
           5 true true None (initial_state true true)
           (Demo.class_row 16384 Demo.PG_PUBLIC_NAMESPACE RELKIND_RELATION
              RELPERSISTENCE_UNLOGGED)).
  reflexivity.
Defined.

(** What the scan of a one-row catalog returns when the row passes the
    filters and names a heap with a single tuple. *)
Lemma single_heap_relation_result `{Backend}
  (kind : ascii) (c : FormData_pg_class) (include_system include_toast : bool) :
  supported_relkind kind = true -> Ascii.eqb kind RELKIND_INDEX = false ->
  relation_skipped include_system include_toast c = false ->
  pg_database_checksum_internal (Demo.database kind [c]) 5
    include_system include_toast None
  = Ok (tuple_contribution
          (pg_tuple_checksum Demo.page_a 1 0 false) (oid c)).
Proof.
  intros Hkind Hidx Hskip.
  unfold pg_database_checksum_internal. cbn [Demo.database MyDatabaseId pg_class].
  change (OidIsValid 5 && negb (5 =? 5)) with false. cbv iota. f_equal.
  rewrite database_checksum_scan_xor. cbn [flat_map]. rewrite app_nil_r.
  unfold class_contributions. rewrite Hskip.
  unfold relation_contributions.
  cbn [Demo.database relation_open Demo.heap_relation rd_relkind].
  rewrite Hkind, Hidx. cbn [negb]. apply xor_fold_single.
Qed.

(** C7 fails as stated: a temporary table is not permanent, yet under every
    mixer and every choice of the two flags its tuple is folded into the
    database checksum, which then differs from the checksum of the database
    without it. *)
Lemma temporary_relation_contributes :
  RELPERSISTENCE_TEMP <> RELPERSISTENCE_PERMANENT
  /\ forall (B : Backend) (include_system include_toast : bool),
       @pg_database_checksum_internal B
         (Demo.database RELKIND_RELATION
            [Demo.class_row 16384 Demo.PG_TEMP_NAMESPACE RELKIND_RELATION
               RELPERSISTENCE_TEMP])
         5 include_system include_toast None
       <> @pg_database_checksum_internal B
            (Demo.database RELKIND_RELATION []) 5 include_system include_toast None.
Proof.
  split; [discriminate |]. intros B include_system include_toast.
  rewrite single_heap_relation_result;
    [| reflexivity | reflexivity | destruct include_system, include_toast; reflexivity].
  intros E. injection E as E. revert E. apply tuple_contribution_nonzero. discriminate.
Qed.

Lemma relation_skipped_toast_flag (include_toast : bool) (c : FormData_pg_class) :
  toast_in_system_namespace c ->
  relation_skipped false include_toast c = relation_skipped false false c.
Proof.
  unfold toast_in_system_namespace, relation_skipped. intros Hns. cbn [negb andb].
  destruct (Ascii.eqb_spec (relkind c) RELKIND_TOASTVALUE) as [Hk | Hk].
  - destruct (Hns Hk) as [-> | ->]; reflexivity.
  - now rewrite !andb_false_r.
Qed.

(** C9 (as amended).  With [include_system] off, every row in the toast or
    the system-catalog namespace is skipped whatever [include_toast] is.
    [include_toast] then only affects toast-kind relations outside those
    two namespaces: when the catalog has none, the result (no progress
    callback) does not depend on [include_toast]. *)
Theorem toast_flag_subsumed `{Backend}
  (db : Database) (dboid : Z) (include_toast : bool)
  (progress_callback : checksum_progress_callback)
  (state : DatabaseChecksumState) (classForm : FormData_pg_class) :
  (relnamespace classForm = PG_TOAST_NAMESPACE
   \/ relnamespace classForm = PG_CATALOG_NAMESPACE ->
   database_checksum_step db false include_toast progress_callback state classForm
   = state)
  /\ (Forall toast_in_system_namespace (pg_class db) ->
      pg_database_checksum_internal db dboid false true None
      = pg_database_checksum_internal db dboid false false None).
Proof.
  split.
  - intros Hns. apply database_checksum_step_skipped. unfold relation_skipped.
    destruct Hns as [-> | ->]; reflexivity.
  - intros Hall. unfold pg_database_checksum_internal.
    destruct (OidIsValid dboid && negb (dboid =? MyDatabaseId db)); [reflexivity |].
    f_equal. rewrite !database_checksum_scan_xor. f_equal.
    induction Hall as [| c l Hc _ IH]; cbn [flat_map]; [reflexivity |].
    rewrite IH. f_equal. unfold class_contributions.
    now rewrite (relation_skipped_toast_flag true c Hc).
Qed.

Lemma toast_flag_subsumed_witness :
  @database_checksum_step Demo.backend
    (Demo.database RELKIND_TOASTVALUE
       [Demo.class_row 16384 PG_TOAST_NAMESPACE RELKIND_TOASTVALUE
          RELPERSISTENCE_PERMANENT])
    false true None (initial_state false true)
    (Demo.class_row 16384 PG_TOAST_NAMESPACE RELKIND_TOASTVALUE RELPERSISTENCE_PERMANENT)
  = initial_state false true
  /\ @pg_database_checksum_internal Demo.backend
       (Demo.database RELKIND_TOASTVALUE
          [Demo.class_row 16384 PG_TOAST_NAMESPACE RELKIND_TOASTVALUE
             RELPERSISTENCE_PERMANENT])
       5 false true None
     = @pg_database_checksum_internal Demo.backend
         (Demo.database RELKIND_TOASTVALUE
            [Demo.class_row 16384 PG_TOAST_NAMESPACE RELKIND_TOASTVALUE
               RELPERSISTENCE_PERMANENT])
         5 false false None.
Proof.
  destruct
    (@toast_flag_subsumed Demo.backend
       (Demo.database RELKIND_TOASTVALUE
          [Demo.class_row 16384 PG_TOAST_NAMESPACE RELKIND_TOASTVALUE
             RELPERSISTENCE_PERMANENT])
       5 true None (initial_state false true)
       (Demo.class_row 16384 PG_TOAST_NAMESPACE RELKIND_TOASTVALUE
          RELPERSISTENCE_PERMANENT))
    as [Hstep Hresult].
  split.
  - apply Hstep. left. reflexivity.
  - apply Hresult. constructor; [| constructor]. intros _. left. reflexivity.
Defined.

(** C9 fails as stated: the toast table of a temporary table lives in a
    per-session namespace, not in [pg_toast].  With [include_system] off it
    is folded in when [include_toast] is on and skipped when it is off, so
    the two results differ under every mixer. *)
Lemma toast_flag_matters_without_system :
  Demo.PG_TOAST_TEMP_NAMESPACE <> PG_TOAST_NAMESPACE
  /\ Demo.PG_TOAST_TEMP_NAMESPACE <> PG_CATALOG_NAMESPACE
  /\ forall B : Backend,
       @pg_database_checksum_internal B
         (Demo.database RELKIND_TOASTVALUE
            [Demo.class_row 16384 Demo.PG_TOAST_TEMP_NAMESPACE RELKIND_TOASTVALUE
               RELPERSISTENCE_TEMP])
         5 false true None
       <> @pg_database_checksum_internal B
            (Demo.database RELKIND_TOASTVALUE
               [Demo.class_row 16384 Demo.PG_TOAST_TEMP_NAMESPACE RELKIND_TOASTVALUE
                  RELPERSISTENCE_TEMP])
            5 false false None.
Proof.
  split; [discriminate |]. split; [discriminate |]. intros B.
  rewrite single_heap_relation_result by reflexivity.
  intros E. injection E as E. revert E.
  change (tuple_contribution (pg_tuple_checksum Demo.page_a 1 0 false) 16384 <> 0).
  apply tuple_contribution_nonzero. discriminate.
Qed.

(** ** The SQL-level column checksum *)

(** C10 (as amended).  [pg_checksum_column] raises an error, and returns
    no fingerprint, whenever the attribute number is not positive, exceeds
    the relation's column count, or the slot named by the tid is not in use.
    Otherwise it hands the attribute to [pg_column_checksum_internal] and
    returns that function's outcome: the column fingerprint (as an [int32]),
    or the error it raises when the type lookup fails or a by-reference
    pointer is [NULL]. *)
Theorem pg_checksum_column_outcome `{Backend}
  (rel : RelationData) (tid : ItemPointerData) (attnum : Z) :
  let page := rd_heap_block rel (ItemPointerGetBlockNumber tid) in
  let lp := PageGetItemId page (ItemPointerGetOffsetNumber tid) in
  let tupleDesc := rd_att rel in
  let attr := TupleDescAttr tupleDesc (attnum - 1) in
  let value := fst (heap_getattr (PageGetItem page lp) attnum tupleDesc) in
  let isnull := snd (heap_getattr (PageGetItem page lp) attnum tupleDesc) in
  (attnum <= 0 \/ natts tupleDesc < attnum \/ ItemIdIsUsed lp = false ->
   is_err (pg_checksum_column rel tid attnum) = true)
  /\ (0 < attnum <= natts tupleDesc -> ItemIdIsUsed lp = true ->
      pg_checksum_column rel tid attnum
      = match pg_column_checksum_internal value isnull
                (atttypid attr) (atttypmod attr) attnum with
        | Ok fingerprint => Ok (int32_of fingerprint)
        | Err e => Err e
        end).
Proof.
  intros page lp tupleDesc attr value isnull. unfold pg_checksum_column.
  fold page. fold lp. fold tupleDesc. split.
  - intros Hbad.
    destruct (Z.leb_spec attnum 0) as [_ | Hpos]; [reflexivity |].
    destruct (Z.ltb_spec (natts tupleDesc) attnum) as [_ | Hle]; [reflexivity |].
    destruct Hbad as [Hb | [Hb | Hb]]; try lia.
    rewrite Hb. reflexivity.
  - intros [Hpos Hle] Hused.
    destruct (Z.leb_spec attnum 0) as [Hbad | _]; [lia |].
    destruct (Z.ltb_spec (natts tupleDesc) attnum) as [Hbad | _]; [lia |].
    rewrite Hused. cbn [negb]. unfold pg_tuple_column_checksum.
    destruct (Z.leb_spec attnum 0) as [Hbad | _]; [lia |].
    destruct (Z.ltb_spec (natts tupleDesc) attnum) as [Hbad | _]; [lia |].
    cbn [orb]. subst value isnull attr.
    destruct (heap_getattr (PageGetItem page lp) attnum tupleDesc) as [v n].
    reflexivity.
Qed.

Lemma pg_checksum_column_outcome_witness :
  is_err (@pg_checksum_column Demo.backend Demo.table_a (Demo.tid 0 2) 1) = true
  /\ @pg_checksum_column Demo.backend Demo.table_a (Demo.tid 0 1) 1
     = match
         @pg_column_checksum_internal Demo.backend
           (fst (@heap_getattr Demo.backend Demo.row_a 1 Demo.two_columns))
           (snd (@heap_getattr Demo.backend Demo.row_a 1 Demo.two_columns))
           Demo.INT4OID (-1) 1
       with
       | Ok fingerprint => Ok (int32_of fingerprint)
       | Err e => Err e
       end.
Proof.
  split.
  - apply (@pg_checksum_column_outcome Demo.backend Demo.table_a (Demo.tid 0 2) 1).
    right; right. reflexivity.
  - apply (@pg_checksum_column_outcome Demo.backend Demo.table_a (Demo.tid 0 1) 1).
    + vm_compute. split; [reflexivity | discriminate].
    + reflexivity.
Defined.

(** C10 fails as stated: attribute 1 of a table whose first column was
    dropped is within range and the slot is in use, yet the call raises
    "cache lookup failed for type 0". *)
Lemma pg_checksum_column_other_error :
  0 < 1 <= natts (rd_att Demo.table_dropped)
  /\ ItemIdIsUsed (PageGetItemId (rd_heap_block Demo.table_dropped 0) 1) = true
  /\ @pg_checksum_column Demo.backend Demo.table_dropped (Demo.tid 0 1) 1
     = Err (ErrCacheLookupFailed 0).
Proof.
  split; [vm_compute; split; [reflexivity | discriminate] |]. split; reflexivity.
Qed.

(** * Further properties of the sources *)

(** ** No fingerprint function emits the sentinel *)

(** X1.  [pg_tuple_checksum] never returns [CHECKSUM_NULL], whatever the
    page, the position and the header flag: it returns [0] or a value that
    went through the remap. *)
Theorem pg_tuple_checksum_never_null `{Backend}
  (page : HeapPage) (offnum blkno : Z) (include_header : bool) :
  pg_tuple_checksum page offnum blkno include_header <> CHECKSUM_NULL.
Proof.
  unfold pg_tuple_checksum.
  destruct ((offnum <? FirstOffsetNumber) || (PageGetMaxOffsetNumber page <? offnum));
    [discriminate |].
  destruct (negb (ItemIdIsUsed (PageGetItemId page offnum))); [discriminate |].
  cbv zeta.
  match goal with
  | |- (if ?c then 0 else _) <> _ => destruct c; [discriminate |]
  end.
  apply Z.eqb_neq, remap_not_null.
Qed.

(** X2.  [pg_index_tuple_checksum] never returns [CHECKSUM_NULL], for B-tree
    and other indexes alike. *)
Theorem pg_index_tuple_checksum_never_null `{Backend}
  (itup : IndexTupleData) (indexTupDesc : TupleDescData) (attno : Z) :
  pg_index_tuple_checksum itup indexTupDesc attno <> CHECKSUM_NULL.
Proof. unfold pg_index_tuple_checksum. cbv zeta. apply Z.eqb_neq, remap_not_null. Qed.

(** ** [pg_index_checksum] *)

(** X3.  [pg_index_checksum] answers with [0] an offset outside
    [FirstOffsetNumber .. PageGetMaxOffsetNumber], an unused slot and a dead
    entry. *)
Theorem pg_index_checksum_skips `{Backend} (page : IndexPage) (offnum : Z) :
  let lp := PageGetItemId page offnum in
  offnum < FirstOffsetNumber \/ PageGetMaxOffsetNumber page < offnum
  \/ ItemIdIsUsed lp = false \/ ItemIdIsDead lp = true ->
  pg_index_checksum page offnum = 0.
Proof.
  intros lp Hcases. unfold pg_index_checksum. fold lp.
  destruct (Z.ltb_spec offnum FirstOffsetNumber) as [_ | Hlo]; [reflexivity |].
  destruct (Z.ltb_spec (PageGetMaxOffsetNumber page) offnum) as [_ | Hhi]; [reflexivity |].
  cbn [orb].
  destruct Hcases as [Hc | [Hc | [Hc | Hc]]]; try lia; rewrite Hc.
  - reflexivity.
  - now rewrite orb_true_r.
Qed.

Lemma pg_index_checksum_skips_witness :
  @pg_index_checksum Demo.backend (rd_index_block Demo.index_a 0) 0 = 0
  /\ @pg_index_checksum Demo.backend (rd_index_block Demo.index_a 0) 4 = 0
  /\ @pg_index_checksum Demo.backend (rd_index_block Demo.index_a 0) 2 = 0.
Proof.
  split; [| split].
  - apply (@pg_index_checksum_skips Demo.backend (rd_index_block Demo.index_a 0) 0).
    left. reflexivity.
  - apply (@pg_index_checksum_skips Demo.backend (rd_index_block Demo.index_a 0) 4).
    right; left. reflexivity.
  - apply (@pg_index_checksum_skips Demo.backend (rd_index_block Demo.index_a 0) 2).
    right; right; right. reflexivity.
Defined.

(** X4.  [pg_index_checksum] never returns [CHECKSUM_NULL]. *)
Theorem pg_index_checksum_never_null `{Backend} (page : IndexPage) (offnum : Z) :
  pg_index_checksum page offnum <> CHECKSUM_NULL.
Proof.
  unfold pg_index_checksum.
  destruct ((offnum <? FirstOffsetNumber) || (PageGetMaxOffsetNumber page <? offnum));
    [discriminate |].
  destruct (negb (ItemIdIsUsed (PageGetItemId page offnum))
            || ItemIdIsDead (PageGetItemId page offnum)); [discriminate |].
  cbv zeta. apply Z.eqb_neq, remap_not_null.
Qed.

(** ** [pg_index_page_checksum] and [pg_checksum_index] *)

Lemma index_page_checksum_item_xor `{Backend} page tupdesc s offnum :
  index_page_checksum_item page tupdesc s offnum
  = Z.lxor s (xor_fold (index_item_fingerprints tupdesc page offnum)).
Proof.
  unfold index_page_checksum_item, index_item_fingerprints.
  destruct (negb (ItemIdIsUsed (PageGetItemId page offnum))
            || ItemIdIsDead (PageGetItemId page offnum)).
  - cbn. now rewrite Z.lxor_0_r.
  - now rewrite xor_fold_single.
Qed.

Lemma pg_index_page_checksum_xor `{Backend} page tupdesc :
  pg_index_page_checksum page tupdesc
  = xor_fold (flat_map (index_item_fingerprints tupdesc page)
                (offsets_upto (PageGetMaxOffsetNumber page))).
Proof.
  unfold pg_index_page_checksum. apply fold_left_xor_from_zero.
  intros; apply index_page_checksum_item_xor.
Qed.

Lemma xor_fold_flat_map {A : Type} (w : A -> list Z) l :
  xor_fold (flat_map w l) = xor_fold (map (fun x => xor_fold (w x)) l).
Proof.
  induction l as [| x l IH]; cbn [flat_map map]; [reflexivity |].
  rewrite xor_fold_app, IH. reflexivity.
Qed.

(** X5.  The index checksum of [pg_checksum_index] is the XOR, over the
    blocks of the index, of [pg_index_page_checksum] of each initialized
    page; uninitialized pages add nothing. *)
Theorem pg_checksum_index_by_pages `{Backend} (rel : RelationData) :
  pg_checksum_index rel
  = int32_of
      (xor_fold
         (map (fun blkno =>
                 let page := rd_index_block rel blkno in
                 if PageIsNew page then 0
                 else pg_index_page_checksum page (rd_att rel))
            (blocks_upto (rd_nblocks rel)))).
Proof.
  rewrite pg_checksum_index_xor. unfold index_fingerprints.
  rewrite xor_fold_flat_map. do 2 f_equal. apply map_ext. intros blkno.
  unfold index_block_fingerprints. cbv zeta.
  destruct (PageIsNew (rd_index_block rel blkno)); [reflexivity |].
  symmetry. apply pg_index_page_checksum_xor.
Qed.

(** ** The block number in the tuple checksum *)

Lemma location_hash_modulo blkno offnum :
  location_hash blkno offnum = location_hash (blkno mod 2 ^ 16) offnum.
Proof.
  unfold location_hash, u32. f_equal. rewrite !Z.shiftl_mul_pow2 by lia.
  change (2 ^ 32) with (2 ^ 16 * 2 ^ 16).
  rewrite !Z.mul_mod_distr_r by lia. now rewrite Z.mod_mod by lia.
Qed.

(** X6.  [pg_tuple_checksum] reads the block number through
    [blkno << 16] in 32 bits, so only its low 16 bits count: two block
    numbers congruent modulo [2^16] give the same fingerprint for the same
    page content and offset. *)
Theorem pg_tuple_checksum_block_modulo `{Backend}
  (page : HeapPage) (offnum blkno1 blkno2 : Z) (include_header : bool) :
  blkno1 mod 2 ^ 16 = blkno2 mod 2 ^ 16 ->
  pg_tuple_checksum page offnum blkno1 include_header
  = pg_tuple_checksum page offnum blkno2 include_header.
Proof.
  intros Hmod. unfold pg_tuple_checksum. cbv zeta.
  fold (location_hash blkno1 offnum). fold (location_hash blkno2 offnum).
  rewrite (location_hash_modulo blkno1), (location_hash_modulo blkno2), Hmod.
  reflexivity.
Qed.

Lemma pg_tuple_checksum_block_modulo_witness :
  @pg_tuple_checksum Demo.backend Demo.page_a 1 7 true
  = @pg_tuple_checksum Demo.backend Demo.page_a 1 196615 true.
Proof.
  apply (@pg_tuple_checksum_block_modulo Demo.backend Demo.page_a 1 7 196615 true).
  reflexivity.
Defined.

(** ** Column checksum: encodings and range *)

Lemma strlen_terminated (s t : list Z) :
  Forall (fun c => c <> 0) s -> strlen (s ++ 0 :: t) = Z.of_nat (length s).
Proof.
  induction 1 as [| c s Hc _ IH]; [reflexivity |].
  cbn [app strlen length]. apply Z.eqb_neq in Hc. rewrite Hc, IH. lia.
Qed.

Lemma firstn_prefix {A : Type} (s t : list A) : firstn (length s) (s ++ t) = s.
Proof.
  rewrite firstn_app, firstn_all, Nat.sub_diag. cbn. apply app_nil_r.
Qed.

(** X7.  For a C-string type ([typlen = -2]) the column checksum mixes the
    bytes before the first zero byte and nothing else: what follows the
    terminator in memory, and the bytes of the Datum word itself, do not
    influence the result. *)
Theorem cstring_checksum_stops_at_terminator `{Backend}
  (s t datum_word : list Z) (typid typmod attnum : Z) (typeForm : FormData_pg_type) :
  SearchSysCache1 typid = Some typeForm ->
  typlen typeForm = -2 ->
  Forall (fun c => c <> 0) s ->
  Z.of_nat (length s) < 2 ^ 32 ->
  pg_column_checksum_internal
    {| datum_bytes := datum_word; datum_pointer := Some (s ++ 0 :: t) |}
    false typid typmod attnum
  = Ok (column_remap (u32 (mix s (u32 attnum))) attnum typid).
Proof.
  intros Hty Hlen Hs Hsize. unfold pg_column_checksum_internal.
  rewrite Hty, Hlen. change (0 <? -2) with false. rewrite andb_false_r.
  change (-2 =? -1) with false. change (-2 =? -2) with true. cbv iota zeta.
  unfold DatumGetCString, pg_checksum_data, column_remap. cbn [datum_pointer].
  rewrite strlen_terminated by assumption.
  rewrite (u32_small (Z.of_nat (length s))) by lia.
  rewrite Nat2Z.id, firstn_prefix. reflexivity.
Qed.

Lemma cstring_checksum_stops_at_terminator_witness :
  @pg_column_checksum_internal Samples.backend
    (Samples.cstring_datum ([104; 105] ++ 0 :: [1; 2; 3])) false Samples.CSTRINGOID (-1) 2
  = Ok (column_remap (u32 (Demo.fnv1a [104; 105] (u32 2))) 2 Samples.CSTRINGOID).
Proof.
  apply (@cstring_checksum_stops_at_terminator Samples.backend
           [104; 105] [1; 2; 3] [] Samples.CSTRINGOID (-1) 2
           {| typbyval := false; typlen := -2 |}).
  - reflexivity.
  - reflexivity.
  - repeat constructor; discriminate.
  - reflexivity.
Defined.

Lemma land_mask_range x : 0 <= Z.land x 0xFFFFFFFE < 2 ^ 32.
Proof.
  assert (H0 : 0 <= Z.land x 0xFFFFFFFE) by (apply Z.land_nonneg; right; lia).
  split; [exact H0 |]. apply below_pow2; [lia | exact H0 |].
  intros i Hi. rewrite Z.land_spec.
  rewrite (testbit_above 32 0xFFFFFFFE i) by lia. apply andb_false_r.
Qed.

Lemma remap_range c s :
  0 <= c < 2 ^ 32 ->
  0 <= (if c =? CHECKSUM_NULL then Z.land s 0xFFFFFFFE else c) < 2 ^ 32.
Proof.
  intros Hc. destruct (c =? CHECKSUM_NULL); [apply land_mask_range | exact Hc].
Qed.

(** A returned column fingerprint is a 32-bit value and is the sentinel
    exactly for a null input. *)
Lemma column_fingerprint_shape `{Backend} value isnull typid typmod attnum :
  match pg_column_checksum_internal value isnull typid typmod attnum with
  | Ok fp => 0 <= fp < 2 ^ 32 /\ (fp =? CHECKSUM_NULL) = isnull
  | Err _ => True
  end.
Proof.
  unfold pg_column_checksum_internal.
  destruct isnull; [split; [vm_compute; split; [discriminate | reflexivity] | reflexivity] |].
  destruct (SearchSysCache1 typid) as [typeForm |]; [| exact I].
  assert (Hfin : forall c, 0 <= c < 2 ^ 32 ->
     0 <= (if c =? CHECKSUM_NULL
           then Z.land (Z.lxor (Z.lxor CHECKSUM_NULL (u32 attnum)) typid) 0xFFFFFFFE
           else c) < 2 ^ 32
     /\ ((if c =? CHECKSUM_NULL
          then Z.land (Z.lxor (Z.lxor CHECKSUM_NULL (u32 attnum)) typid) 0xFFFFFFFE
          else c) =? CHECKSUM_NULL) = false).
  { intros c Hc. split; [now apply remap_range | apply remap_not_null]. }
  destruct (typbyval typeForm && (0 <? typlen typeForm)); [apply Hfin, u32_range |].
  destruct (typlen typeForm =? -1); [apply Hfin, u32_range |].
  destruct (typlen typeForm =? -2); [apply Hfin, u32_range |].
  destruct (DatumGetPointer value); [apply Hfin, u32_range | exact I].
Qed.

Lemma int32_of_minus_one c : 0 <= c < 2 ^ 32 -> (int32_of c =? -1) = (c =? CHECKSUM_NULL).
Proof.
  intros Hc. unfold int32_of. cbv zeta. rewrite (u32_small c Hc).
  unfold CHECKSUM_NULL.
  destruct (Z.ltb_spec c (2 ^ 31)); destruct (Z.eqb_spec c 0xFFFFFFFF);
    first [apply Z.eqb_eq; lia | apply Z.eqb_neq; lia].
Qed.

Lemma int32_of_range x : - 2 ^ 31 <= int32_of x < 2 ^ 31.
Proof.
  unfold int32_of. cbv zeta. pose proof (u32_range x).
  destruct (Z.ltb_spec (u32 x) (2 ^ 31)); lia.
Qed.

(** X8.  When the SQL function [pg_checksum_column] returns, its [int4]
    result is [-1] exactly when the attribute read from the tuple is null:
    no non-null value of any type is reported as [-1]. *)
Theorem pg_checksum_column_minus_one_iff_null `{Backend}
  (rel : RelationData) (tid : ItemPointerData) (attnum : Z) :
  let page := rd_heap_block rel (ItemPointerGetBlockNumber tid) in
  let tuple := PageGetItem page (PageGetItemId page (ItemPointerGetOffsetNumber tid)) in
  match pg_checksum_column rel tid attnum with
  | Ok result => (result =? -1) = snd (heap_getattr tuple attnum (rd_att rel))
  | Err _ => True
  end.
Proof.
  intros page tuple. unfold pg_checksum_column. fold page.
  destruct (attnum <=? 0); [exact I |].
  destruct (natts (rd_att rel) <? attnum); [exact I |].
  destruct (negb (ItemIdIsUsed (PageGetItemId page (ItemPointerGetOffsetNumber tid))));
    [exact I |].
  cbv zeta. unfold PageGetItem in *. fold tuple. unfold pg_tuple_column_checksum.
  destruct ((attnum <=? 0) || (natts (rd_att rel) <? attnum)); [exact I |].
  destruct (heap_getattr tuple attnum (rd_att rel)) as [value isnull]. cbn [snd].
  pose proof (column_fingerprint_shape value isnull
                (atttypid (TupleDescAttr (rd_att rel) (attnum - 1)))
                (atttypmod (TupleDescAttr (rd_att rel) (attnum - 1))) attnum) as Hs.
  destruct (pg_column_checksum_internal value isnull
              (atttypid (TupleDescAttr (rd_att rel) (attnum - 1)))
              (atttypmod (TupleDescAttr (rd_att rel) (attnum - 1))) attnum) as [fp | e];
    [| exact I].
  destruct Hs as [Hrange Hnull]. now rewrite int32_of_minus_one.
Qed.

(** ** Range of the tuple fingerprint and the SQL function [pg_checksum_tuple] *)

Lemma lxor_bound n x y :
  0 <= n -> 0 <= x < 2 ^ n -> 0 <= y < 2 ^ n -> 0 <= Z.lxor x y < 2 ^ n.
Proof.
  intros Hn Hx Hy.
  assert (H0 : 0 <= Z.lxor x y) by (apply Z.lxor_nonneg; lia).
  split; [exact H0 |]. apply below_pow2; try assumption.
  intros i Hi. rewrite Z.lxor_spec.
  rewrite (testbit_above n x i), (testbit_above n y i) by assumption. reflexivity.
Qed.

Lemma PageGetItemId_in_page {Item} (page : PageData Item) (offnum : Z) :
  FirstOffsetNumber <= offnum <= PageGetMaxOffsetNumber page ->
  In (PageGetItemId page offnum) (pd_linp page).
Proof.
  unfold FirstOffsetNumber, PageGetMaxOffsetNumber, PageGetItemId. intros Hrange.
  replace (offnum <? FirstOffsetNumber) with false
    by (symmetry; apply Z.ltb_ge; unfold FirstOffsetNumber; lia).
  destruct (nth_error (pd_linp page) (Z.to_nat (offnum - 1))) as [lp |] eqn:Hnth.
  - eapply nth_error_In, Hnth.
  - apply nth_error_None in Hnth. lia.
Qed.

Lemma tuple_fingerprint_bounds `{Backend}
  (page : HeapPage) (offnum blkno : Z) (include_header : bool) :
  offnum < 2 ^ 16 -> stamps_in_range page ->
  0 <= pg_tuple_checksum page offnum blkno include_header < 2 ^ 32.
Proof.
  intros Hoff Hstamps. unfold pg_tuple_checksum.
  destruct (Z.ltb_spec offnum FirstOffsetNumber) as [_ | Hlo]; [cbn; lia |].
  destruct (Z.ltb_spec (PageGetMaxOffsetNumber page) offnum) as [_ | Hhi]; [cbn; lia |].
  cbn [orb].
  destruct (negb (ItemIdIsUsed (PageGetItemId page offnum))); [lia |].
  cbv zeta.
  match goal with
  | |- _ <= (if ?c then 0 else _) < _ => destruct c; [lia |]
  end.
  assert (Hin : In (PageGetItemId page offnum) (pd_linp page))
    by (apply PageGetItemId_in_page; lia).
  unfold stamps_in_range in Hstamps. rewrite Forall_forall in Hstamps.
  destruct (Hstamps _ Hin) as [Hxmin Hxmax].
  assert (Hloc : 0 <= Z.lor (u32 (Z.shiftl blkno 16)) offnum < 2 ^ 32).
  { apply location_hash_range. unfold FirstOffsetNumber in Hlo. lia. }
  apply remap_range.
  unfold HeapTupleHeaderGetRawXmin, HeapTupleHeaderGetRawXmax, PageGetItem.
  destruct (negb include_header).
  - repeat apply lxor_bound; try lia; try assumption. apply u32_range.
  - apply lxor_bound; try lia; try assumption. apply u32_range.
Qed.

Lemma stamps_in_range_page_a : stamps_in_range Demo.page_a.
Proof. repeat constructor; cbn; lia. Qed.

(** X9.  The SQL function [pg_checksum_tuple] never returns [-1], the
    [int4] reading of [CHECKSUM_NULL], on a well-typed page: neither for a
    computed fingerprint nor for an invalid position (which gives [0]). *)
Theorem pg_checksum_tuple_never_minus_one `{Backend}
  (rel : RelationData) (tid : ItemPointerData) (include_header : bool) :
  ItemPointerGetOffsetNumber tid < 2 ^ 16 ->
  stamps_in_range (rd_heap_block rel (ItemPointerGetBlockNumber tid)) ->
  pg_checksum_tuple rel tid include_header <> -1.
Proof.
  intros Hoff Hstamps. unfold pg_checksum_tuple. cbv zeta.
  apply Z.eqb_neq. rewrite int32_of_minus_one by now apply tuple_fingerprint_bounds.
  apply Z.eqb_neq. unfold pg_tuple_checksum.
  destruct ((ItemPointerGetOffsetNumber tid <? FirstOffsetNumber)
            || (PageGetMaxOffsetNumber (rd_heap_block rel (ItemPointerGetBlockNumber tid))
                <? ItemPointerGetOffsetNumber tid)); [discriminate |].
  destruct (negb (ItemIdIsUsed
                    (PageGetItemId (rd_heap_block rel (ItemPointerGetBlockNumber tid))
                       (ItemPointerGetOffsetNumber tid)))); [discriminate |].
  cbv zeta.
  match goal with
  | |- (if ?c then 0 else _) <> _ => destruct c; [discriminate |]
  end.
  apply Z.eqb_neq, remap_not_null.
Qed.

Lemma pg_checksum_tuple_never_minus_one_witness :
  @pg_checksum_tuple Demo.backend Demo.table_a (Demo.tid 0 1) false <> -1.
Proof.
  apply (@pg_checksum_tuple_never_minus_one Demo.backend Demo.table_a (Demo.tid 0 1) false).
  - reflexivity.
  - exact stamps_in_range_page_a.
Defined.

(** ** The SQL function [pg_database_checksum] *)

(** X10.  [pg_database_checksum] fails with the privilege error for a
    caller who is not a superuser, before anything is scanned.  For a
    superuser, a scan that PostgreSQL does not end early returns the [int8]
    cast of the XOR of all contributions: the function passes [MyDatabaseId],
    so the cross-database error of [pg_database_checksum_internal] cannot
    occur, and arguments left out default to [false]. *)
Theorem pg_database_checksum_outcome `{Backend}
  (db : Database) (superuser : bool) (args : list bool) (scan_aborts : bool) :
  pg_database_checksum db superuser args scan_aborts
  = if negb superuser then InsufficientPrivilege
    else if scan_aborts then Aborted
    else Completed
           (Ok (int64_of
                  (xor_fold
                     (database_contributions db (nth 0 args false) (nth 1 args false))))).
Proof.
  unfold pg_database_checksum. destruct superuser; [| reflexivity]. cbn [negb].
  destruct scan_aborts; [reflexivity |].
  unfold pg_database_checksum_internal. rewrite Z.eqb_refl. cbn [negb].
  rewrite andb_false_r, database_checksum_scan_xor. unfold database_contributions.
  destruct args as [| a0 [| a1 args]]; reflexivity.
Qed.

(** ** Cancellation in the table aggregate *)

(** X11.  A scan that returns every tuple twice gives the table checksum
    [0], the checksum of an empty table: XOR-ing a fingerprint in a second
    time removes it. *)
Theorem pg_checksum_table_pairs_cancel `{Backend}
  (rel : RelationData) (include_header : bool) (scan doubled : list ItemPointerData) :
  Permutation doubled (scan ++ scan) ->
  pg_checksum_table (with_scan rel doubled) include_header = 0.
Proof.
  intros Hperm. rewrite pg_checksum_table_xor. unfold table_fingerprints.
  cbn [with_scan rd_scan].
  rewrite (xor_fold_perm _ _
             (Permutation_map (tuple_fingerprint (with_scan rel doubled) include_header)
                Hperm)).
  rewrite map_app, xor_fold_app, Z.lxor_nilpotent. reflexivity.
Qed.

Lemma pg_checksum_table_pairs_cancel_witness :
  @pg_checksum_table Demo.backend
    (with_scan Demo.table_a [Demo.tid 0 1; Demo.tid 0 1]) false = 0.
Proof.
  apply (@pg_checksum_table_pairs_cancel Demo.backend Demo.table_a false
           [Demo.tid 0 1] [Demo.tid 0 1; Demo.tid 0 1]).
  apply Permutation_refl.
Defined.

(** ** Closed form of a relation's share of the database checksum *)

Lemma pack_testbit (hi lo i : Z) :
  0 <= hi < 2 ^ 32 -> 0 <= lo < 2 ^ 32 -> 0 <= i ->
  Z.testbit (Z.lor (u64 (Z.shiftl hi 32)) lo) i
  = if i <? 32 then Z.testbit lo i else Z.testbit hi (i - 32).
Proof.
  intros Hhi Hlo Hi.
  assert (Hshift : u64 (Z.shiftl hi 32) = Z.shiftl hi 32).
  { apply u64_small. rewrite Z.shiftl_mul_pow2 by lia.
    change (2 ^ 64) with (2 ^ 32 * 2 ^ 32). nia. }
  rewrite Hshift, Z.lor_spec. destruct (Z.ltb_spec i 32).
  - rewrite Z.shiftl_spec_low by lia. reflexivity.
  - rewrite Z.shiftl_spec by lia. rewrite (testbit_above 32 lo i) by lia.
    apply orb_false_r.
Qed.

(** XOR of two terms is the term of the XORs of their halves. *)
Lemma pack_lxor (a b c d : Z) :
  0 <= a < 2 ^ 32 -> 0 <= b < 2 ^ 32 -> 0 <= c < 2 ^ 32 -> 0 <= d < 2 ^ 32 ->
  Z.lxor (Z.lor (u64 (Z.shiftl a 32)) b) (Z.lor (u64 (Z.shiftl c 32)) d)
  = Z.lor (u64 (Z.shiftl (Z.lxor a c) 32)) (Z.lxor b d).
Proof.
  intros Ha Hb Hc Hd. apply Z.bits_inj'. intros i Hi.
  rewrite Z.lxor_spec, !pack_testbit by (try apply lxor_bound; lia).
  destruct (i <? 32); now rewrite Z.lxor_spec.
Qed.

Lemma u32_lxor x y : u32 (Z.lxor x y) = Z.lxor (u32 x) (u32 y).
Proof.
  unfold u32. rewrite <- !Z.land_ones by lia. apply Z.bits_inj'. intros i _.
  rewrite Z.lxor_spec, !Z.land_spec, Z.lxor_spec.
  destruct (Z.testbit x i), (Z.testbit y i), (Z.testbit (Z.ones 32) i); reflexivity.
Qed.

Lemma u32_xor_fold l : u32 (xor_fold l) = xor_fold (map u32 l).
Proof.
  induction l as [| x l IH]; [reflexivity |].
  cbn [xor_fold fold_right map]. fold (xor_fold l). fold (xor_fold (map u32 l)).
  now rewrite u32_lxor, IH.
Qed.

Lemma u32_int32_of x : u32 (int32_of x) = u32 x.
Proof.
  unfold int32_of. cbv zeta. destruct (u32 x <? 2 ^ 31).
  - apply u32_idem.
  - unfold u32. rewrite <- (Z.mod_add _ 1) by lia.
    replace (x mod 2 ^ 32 - 2 ^ 32 + 1 * 2 ^ 32) with (x mod 2 ^ 32) by lia.
    apply Z.mod_mod. lia.
Qed.

(** The XOR of [n] terms that share the relation id [relid]: the relation
    id survives in the low half only when [n] is odd. *)
Lemma xor_fold_terms (fps : list Z) (relid : Z) :
  xor_fold (map (fun fp => Z.lor (u64 (Z.shiftl (u32 fp) 32)) (u32 relid)) fps)
  = Z.lor (u64 (Z.shiftl (u32 (xor_fold fps)) 32))
      (if Nat.even (length fps) then 0 else u32 relid).
Proof.
  induction fps as [| fp fps IH]; [reflexivity |].
  cbn [map xor_fold fold_right length].
  fold (xor_fold (map (fun fp => Z.lor (u64 (Z.shiftl (u32 fp) 32)) (u32 relid)) fps)).
  fold (xor_fold fps). rewrite IH, Nat.even_succ, <- Nat.negb_even.
  pose proof (u32_range relid) as Hr. pose proof (u32_range fp) as Hf.
  pose proof (u32_range (xor_fold fps)) as Hx.
  rewrite pack_lxor by (try assumption; destruct (Nat.even (length fps)); lia).
  rewrite <- u32_lxor. f_equal.
  destruct (Nat.even (length fps)); cbn [negb].
  - apply Z.lxor_0_r.
  - apply Z.lxor_nilpotent.
Qed.

(** X12.  What a heap relation adds to the 64-bit database checksum is
    determined by its table checksum and its tuple count: the high half is
    [pg_checksum_table] (header excluded) read as unsigned, and the low
    half is the relation id when the scan returned an odd number of tuples
    and [0] when it returned an even number. *)
Theorem heap_relation_database_term `{Backend}
  (db : Database) (relid : Z) (state : DatabaseChecksumState) :
  let rel := relation_open db relid in
  supported_relkind (rd_relkind rel) = true ->
  Ascii.eqb (rd_relkind rel) RELKIND_INDEX = false ->
  checksum (process_relation_for_checksum db relid state)
  = Z.lxor (checksum state)
      (Z.lor (u64 (Z.shiftl (u32 (pg_checksum_table rel false)) 32))
         (if Nat.even (length (rd_scan rel)) then 0 else u32 relid)).
Proof.
  intros rel Hkind Hidx. rewrite process_relation_for_checksum_xor. f_equal.
  unfold relation_contributions. fold rel. rewrite Hkind, Hidx. cbn [negb].
  unfold tuple_contribution. rewrite xor_fold_terms.
  rewrite pg_checksum_table_xor, u32_int32_of.
  unfold table_fingerprints. now rewrite length_map.
Qed.

Lemma heap_relation_database_term_witness :
  checksum
    (@process_relation_for_checksum Demo.backend
       (Demo.database RELKIND_RELATION []) 16384 (initial_state false false))
  = Z.lxor 0
      (Z.lor
         (u64 (Z.shiftl
                 (u32 (@pg_checksum_table Demo.backend
                         (relation_open (Demo.database RELKIND_RELATION []) 16384) false))
                 32))
         (u32 16384)).
Proof.
  apply (@heap_relation_database_term Demo.backend
           (Demo.database RELKIND_RELATION []) 16384 (initial_state false false));
    reflexivity.
Defined.

(** X13.  What an index adds to the 64-bit database checksum: the high half
    is [pg_checksum_index] read as unsigned, and the low half is the
    index's id when it has an odd number of live entries and [0] when it
    has an even number. *)
Theorem index_relation_database_term `{Backend}
  (db : Database) (relid : Z) (state : DatabaseChecksumState) :
  let rel := relation_open db relid in
  Ascii.eqb (rd_relkind rel) RELKIND_INDEX = true ->
  checksum (process_relation_for_checksum db relid state)
  = Z.lxor (checksum state)
      (Z.lor (u64 (Z.shiftl (u32 (pg_checksum_index rel)) 32))
         (if Nat.even (length (index_fingerprints rel)) then 0 else u32 (rd_id rel))).
Proof.
  intros rel Hidx. rewrite process_relation_for_checksum_xor. f_equal.
  unfold relation_contributions. fold rel.
  assert (Hkind : supported_relkind (rd_relkind rel) = true).
  { unfold supported_relkind. rewrite Hidx. now rewrite orb_true_r. }
  rewrite Hkind, Hidx. cbn [negb].
  unfold index_contribution. rewrite xor_fold_terms.
  now rewrite pg_checksum_index_xor, u32_int32_of.
Qed.

Lemma index_relation_database_term_witness :
  checksum
    (@process_relation_for_checksum Demo.backend Samples.index_database 16390
       (initial_state false false))
  = Z.lxor 0
      (Z.lor
         (u64 (Z.shiftl
                 (u32 (@pg_checksum_index Demo.backend
                         (relation_open Samples.index_database 16390)))
                 32))
         0).
Proof.
  apply (@index_relation_database_term Demo.backend Samples.index_database 16390
           (initial_state false false)).
  reflexivity.
Defined.

(** ** The counters of the database scan *)

Lemma u64_range x : 0 <= u64 x < 2 ^ 64.
Proof. unfold u64. apply Z.mod_pos_bound. lia. Qed.

(** A loop whose body adds the number of terms it folds to a 64-bit counter
    ends with the counter advanced by the total number of terms. *)
Lemma fold_left_count {S A : Type} (g : S -> Z) (f : S -> A -> S) (w : A -> list Z) :
  (forall s x, 0 <= g s < 2 ^ 64 -> g (f s x) = u64 (g s + Z.of_nat (length (w x)))) ->
  forall l s, 0 <= g s < 2 ^ 64 ->
    g (fold_left f l s) = u64 (g s + Z.of_nat (length (flat_map w l))).
Proof.
  intros Hstep l. induction l as [| x l IH]; intros s Hs; cbn [fold_left flat_map].
  - cbn. rewrite Z.add_0_r. symmetry. now apply u64_small.
  - rewrite IH by (rewrite Hstep by assumption; apply u64_range).
    rewrite Hstep by assumption. rewrite length_app, Nat2Z.inj_add.
    unfold u64. rewrite Zplus_mod_idemp_l. f_equal. lia.
Qed.

Lemma count_unchanged n : 0 <= n < 2 ^ 64 -> n = u64 (n + Z.of_nat (@length Z [])).
Proof. intros Hn. cbn. rewrite Z.add_0_r. symmetry. now apply u64_small. Qed.

Lemma process_index_item_count `{Backend} idxRel page state offnum :
  0 <= n_tuples state < 2 ^ 64 ->
  n_tuples (process_index_item idxRel page state offnum)
  = u64 (n_tuples state
         + Z.of_nat (length (index_item_fingerprints (rd_att idxRel) page offnum))).
Proof.
  intros Hn. unfold process_index_item, index_item_fingerprints.
  destruct (negb (ItemIdIsUsed (PageGetItemId page offnum))
            || ItemIdIsDead (PageGetItemId page offnum)).
  - now apply count_unchanged.
  - reflexivity.
Qed.

Lemma process_index_block_count `{Backend} idxRel state blkno :
  0 <= n_tuples state < 2 ^ 64 ->
  n_tuples (process_index_block idxRel state blkno)
  = u64 (n_tuples state + Z.of_nat (length (index_block_fingerprints idxRel blkno))).
Proof.
  intros Hn. unfold process_index_block, index_block_fingerprints.
  destruct (PageIsNew (rd_index_block idxRel blkno)).
  - now apply count_unchanged.
  - cbn [incr_n_pages n_tuples].
    apply (fold_left_count n_tuples); [| exact Hn].
    intros; now apply process_index_item_count.
Qed.

Lemma process_relation_for_checksum_count `{Backend} db relid state :
  0 <= n_tuples state < 2 ^ 64 ->
  n_tuples (process_relation_for_checksum db relid state)
  = u64 (n_tuples state + Z.of_nat (length (relation_contributions db relid))).
Proof.
  intros Hn. unfold process_relation_for_checksum, relation_contributions.
  destruct (supported_relkind (rd_relkind (relation_open db relid))); cbn [negb].
  - destruct (Ascii.eqb (rd_relkind (relation_open db relid)) RELKIND_INDEX); cbn [negb].
    + rewrite length_map. unfold process_index_for_checksum, index_fingerprints.
      rewrite (fold_left_count n_tuples _
                 (index_block_fingerprints (relation_open db relid)));
        [reflexivity | intros; now apply process_index_block_count | exact Hn].
    + rewrite length_map. unfold table_fingerprints.
      rewrite <- flat_map_singleton.
      rewrite (fold_left_count n_tuples _
                 (fun t_self =>
                    [tuple_fingerprint (relation_open db relid) false t_self]));
        [reflexivity | intros; reflexivity | exact Hn].
  - now apply count_unchanged.
Qed.

Lemma database_checksum_step_count `{Backend} db include_system include_toast state c :
  0 <= n_tuples state < 2 ^ 64 ->
  n_tuples (database_checksum_step db include_system include_toast None state c)
  = u64 (n_tuples state
         + Z.of_nat (length (class_contributions db include_system include_toast c))).
Proof.
  intros Hn. unfold class_contributions.
  destruct (relation_skipped include_system include_toast c) eqn:Hskip.
  - rewrite database_checksum_step_skipped by assumption. now apply count_unchanged.
  - rewrite database_checksum_step_processed by assumption.
    now apply process_relation_for_checksum_count.
Qed.

(** X14.  After a database scan without progress callback, [n_tuples]
    equals, modulo [2^64], the number of 64-bit terms XOR-ed into the
    checksum: one per heap tuple the scans returned and one per live index
    entry, none for a skipped relation. *)
Theorem database_scan_counts_terms `{Backend}
  (db : Database) (include_system include_toast : bool)
  (classes : list FormData_pg_class) :
  n_tuples (database_checksum_scan db include_system include_toast None classes)
  = u64 (Z.of_nat
           (length (flat_map (class_contributions db include_system include_toast)
                      classes))).
Proof.
  unfold database_checksum_scan.
  rewrite (fold_left_count n_tuples _
             (class_contributions db include_system include_toast)).
  - reflexivity.
  - intros; now apply database_checksum_step_count.
  - cbn. lia.
Qed.

(** X15.  [n_pages] counts index pages only: processing a heap relation
    (table, materialized view, sequence or toast table) leaves it as it
    was, however many pages the scan touched. *)
Theorem heap_relation_leaves_n_pages `{Backend}
  (db : Database) (relid : Z) (state : DatabaseChecksumState) :
  Ascii.eqb (rd_relkind (relation_open db relid)) RELKIND_INDEX = false ->
  n_pages (process_relation_for_checksum db relid state) = n_pages state.
Proof.
  intros Hidx. unfold process_relation_for_checksum.
  destruct (negb (supported_relkind (rd_relkind (relation_open db relid))));
    [reflexivity |].
  rewrite Hidx. cbn [negb].
  assert (Hfold : forall scan s,
             n_pages (fold_left (process_heap_tuple (relation_open db relid) relid) scan s)
             = n_pages s).
  { induction scan as [| t scan IH]; intros s; [reflexivity |].
    cbn [fold_left]. now rewrite IH. }
  now rewrite Hfold.
Qed.

Lemma heap_relation_leaves_n_pages_witness :
  n_pages
    (@process_relation_for_checksum Demo.backend
       (Demo.database RELKIND_RELATION []) 16384 (initial_state false false))
  = 0.
Proof.
  apply (@heap_relation_leaves_n_pages Demo.backend
           (Demo.database RELKIND_RELATION []) 16384 (initial_state false false)).
  reflexivity.
Defined.

(** ** Null attributes and header bytes *)

(** X16.  For a valid attribute number and a used slot, a null attribute
    makes [pg_checksum_column] return [-1] without any type lookup: no
    catalog state can turn the call into an error. *)
Theorem pg_checksum_column_null_attribute `{Backend}
  (rel : RelationData) (tid : ItemPointerData) (attnum : Z) :
  let page := rd_heap_block rel (ItemPointerGetBlockNumber tid) in
  let lp := PageGetItemId page (ItemPointerGetOffsetNumber tid) in
  0 < attnum <= natts (rd_att rel) ->
  ItemIdIsUsed lp = true ->
  snd (heap_getattr (PageGetItem page lp) attnum (rd_att rel)) = true ->
  pg_checksum_column rel tid attnum = Ok (-1).
Proof.
  intros page lp [Hpos Hle] Hused Hnull. unfold pg_checksum_column.
  fold page. fold lp.
  destruct (Z.leb_spec attnum 0) as [Hbad | _]; [lia |].
  destruct (Z.ltb_spec (natts (rd_att rel)) attnum) as [Hbad | _]; [lia |].
  rewrite Hused. cbn [negb]. unfold pg_tuple_column_checksum.
  destruct (Z.leb_spec attnum 0) as [Hbad | _]; [lia |].
  destruct (Z.ltb_spec (natts (rd_att rel)) attnum) as [Hbad | _]; [lia |].
  cbn [orb].
  destruct (heap_getattr (PageGetItem page lp) attnum (rd_att rel)) as [value isnull].
  cbn [snd] in Hnull. subst isnull. reflexivity.
Qed.

Lemma pg_checksum_column_null_attribute_witness :
  @pg_checksum_column Samples.backend Samples.table_null (Demo.tid 0 2) 1 = Ok (-1).
Proof.
  apply (@pg_checksum_column_null_attribute Samples.backend Samples.table_null
           (Demo.tid 0 2) 1).
  - vm_compute. split; [reflexivity | discriminate].
  - reflexivity.
  - reflexivity.
Defined.



(** ** An item shorter than its header *)

Lemma data_span_page_dead : data_span Samples.page_dead 1 = [].
Proof.
  unfold data_span. generalize (Z.to_nat (data_len Samples.page_dead 1)).
  intros n. destruct n; reflexivity.
Qed.

(** C8.  The code at the failing input: slot 1 of [Samples.page_dead] is in
    use, its item length 0 is below the header length 24, so no byte lies
    past the header.  With the header excluded, [len -= t_hoff] wraps to
    4294967272, the test [len <= 0] fails, and [pg_tuple_checksum] does not
    return [0]: it asks the mixer for 4294967272 bytes past the header (the
    model hands over the bytes that exist, none here) and returns the
    fingerprint built from the result, 7 with the sample mixer. *)
Lemma pg_tuple_checksum_short_item_wraps :
  ItemIdIsUsed (PageGetItemId Samples.page_dead 1) = true
  /\ lp_len (PageGetItemId Samples.page_dead 1)
     < t_hoff (PageGetItem Samples.page_dead (PageGetItemId Samples.page_dead 1))
  /\ data_len Samples.page_dead 1 = 4294967272
  /\ (forall B : Backend,
        @pg_tuple_checksum B Samples.page_dead 1 0 false
        = if @raw_tuple_checksum B Samples.page_dead 1 0 =? CHECKSUM_NULL
          then Z.land (Z.lxor CHECKSUM_NULL (location_hash 0 1)) 0xFFFFFFFE
          else @raw_tuple_checksum B Samples.page_dead 1 0)
  /\ @pg_tuple_checksum Demo.backend Samples.page_dead 1 0 false = 7.
Proof.
  assert (Hlen : data_len Samples.page_dead 1 = 4294967272) by reflexivity.
  assert (Hslot : data_slot Samples.page_dead 1).
  { split; [split; discriminate |]. split; [reflexivity |]. rewrite Hlen. discriminate. }
  split; [reflexivity |]. split; [reflexivity |]. split; [exact Hlen |]. split.
  - intros B. now apply pg_tuple_checksum_data_only.
  - rewrite (@pg_tuple_checksum_data_only Demo.backend) by exact Hslot.
    unfold raw_tuple_checksum. rewrite data_span_page_dead. reflexivity.
Qed.
